(** * map_pdb_cdb: the PDB -> CDB -> Oracle home report

    A shallow embedding of [map_pdb_cdb.py].  The script is dynamically
    typed glue around three library services (a child process, a JSON
    decoder, the csv module) and one output file, so the embedding has

    - [pyval], the Python values that [json.loads] can produce, with the
      handful of operations the script applies to them ([dict.get],
      truthiness, iteration, dict construction), each raising what Python
      raises on a value of the wrong shape;
    - [M], a state-and-exception monad: the state holds the lines printed so
      far and the files written, the exception is the Python exception in
      flight;
    - [Env], the services the script does not implement: what
      [subprocess.run] answers for a command, what [json.loads] answers
      for a text, [str] on values, the text that names a set of keys, and
      how the output file behaves.

    JSON numbers are modelled as integers; text is a byte string (the UTF-8
    encoding of the Python string). *)

From Stdlib Require Import String Ascii List ZArith Bool Lia.
Import ListNotations.
Open Scope string_scope.

(* ===================================================================== *)
(** ** Python values and exceptions *)

#[warnings="-register-all"]
Inductive pyval : Type :=
| PNone
| PBool (b : bool)
| PInt (z : Z)
| PStr (s : string)
| PList (l : list pyval)
| PDict (d : list (pyval * pyval)).

(** The exception classes that can occur in a run.  [KeyboardInterrupt]
    stands for the classes outside [Exception]. *)
Inductive exn_class : Type :=
| CalledProcessError
| JSONDecodeError
| AttributeError
| TypeError
| ValueError
| OSError
| UnicodeError
| CsvError
| RecursionError
| KeyboardInterrupt.

Record exn : Type := Exn { exn_cls : exn_class; exn_msg : string }.

Inductive result (A : Type) : Type :=
| Ok (a : A)
| Raise (e : exn).
Arguments Ok {A} a.
Arguments Raise {A} e.

Definition exn_class_eqb (a b : exn_class) : bool :=
  match a, b with
  | CalledProcessError, CalledProcessError
  | JSONDecodeError, JSONDecodeError
  | AttributeError, AttributeError
  | TypeError, TypeError
  | ValueError, ValueError
  | OSError, OSError
  | UnicodeError, UnicodeError
  | CsvError, CsvError
  | RecursionError, RecursionError
  | KeyboardInterrupt, KeyboardInterrupt => true
  | _, _ => false
  end.

(** [isinstance(e, Exception)] *)
Definition is_Exception (c : exn_class) : bool :=
  match c with
  | KeyboardInterrupt => false
  | _ => true
  end.

Definition rbind {A B} (r : result A) (f : A -> result B) : result B :=
  match r with
  | Ok a => f a
  | Raise e => Raise e
  end.

Declare Scope result_scope.
Delimit Scope result_scope with result.
Notation "x <- c ;; k" := (rbind c (fun x => k))
  (at level 61, c at next level, right associativity) : result_scope.

Fixpoint rmapM {A B} (f : A -> result B) (l : list A) : result (list B) :=
  match l with
  | [] => Ok []
  | a :: l' =>
      (b <- f a ;;
       bs <- rmapM f l' ;;
       Ok (b :: bs))%result
  end.

(* --------------------------------------------------------------------- *)
(** *** The operations of Python the script uses *)

Definition type_name (v : pyval) : string :=
  match v with
  | PNone => "NoneType"
  | PBool _ => "bool"
  | PInt _ => "int"
  | PStr _ => "str"
  | PList _ => "list"
  | PDict _ => "dict"
  end.

(** [bool(v)] *)
Definition truthy (v : pyval) : bool :=
  match v with
  | PNone => false
  | PBool b => b
  | PInt z => negb (z =? 0)%Z
  | PStr s => negb (s =? "")
  | PList l => match l with [] => false | _ => true end
  | PDict d => match d with [] => false | _ => true end
  end.

(** Lists and dicts have no hash. *)
Definition hashable (v : pyval) : bool :=
  match v with
  | PList _ | PDict _ => false
  | _ => true
  end.

Definition key_num (v : pyval) : option Z :=
  match v with
  | PBool b => Some (if b then 1 else 0)%Z
  | PInt z => Some z
  | _ => None
  end.

(** [a == b] on hashable values: [True == 1] and [False == 0], everything
    else is equal to itself only. *)
Definition key_eqb (a b : pyval) : bool :=
  match a, b with
  | PNone, PNone => true
  | PStr s, PStr t => (s =? t)
  | _, _ =>
      match key_num a, key_num b with
      | Some x, Some y => (x =? y)%Z
      | _, _ => false
      end
  end.

Fixpoint dict_lookup (d : list (pyval * pyval)) (k : pyval) : option pyval :=
  match d with
  | [] => None
  | (k', v) :: d' => if key_eqb k' k then Some v else dict_lookup d' k
  end.

(** [d[k] = v]: an equal key keeps its place (and the first key object), a
    new key goes last. *)
Fixpoint dict_store (d : list (pyval * pyval)) (k v : pyval)
  : list (pyval * pyval) :=
  match d with
  | [] => [(k, v)]
  | (k', v') :: d' =>
      if key_eqb k' k then (k', v) :: d' else (k', v') :: dict_store d' k v
  end.

Definition no_attribute (v : pyval) (attr : string) : exn :=
  Exn AttributeError
      ("'" ++ type_name v ++ "' object has no attribute '" ++ attr ++ "'").

Definition unhashable (v : pyval) : exn :=
  Exn TypeError ("unhashable type: '" ++ type_name v ++ "'").

(** [d.get(k, default)] *)
Definition py_get (d k default : pyval) : result pyval :=
  match d with
  | PDict kvs =>
      if hashable k then
        Ok (match dict_lookup kvs k with Some v => v | None => default end)
      else Raise (unhashable k)
  | _ => Raise (no_attribute d "get")
  end.

(** [d[k] = v] inside a dict display or comprehension *)
Definition py_setitem (d : list (pyval * pyval)) (k v : pyval)
  : result (list (pyval * pyval)) :=
  if hashable k then Ok (dict_store d k v) else Raise (unhashable k).

Definition chars (s : string) : list pyval :=
  map (fun c => PStr (String c "")) (list_ascii_of_string s).

(** [for x in v]: the elements of a list, the keys of a dict, the characters
    of a string. *)
Definition py_iter (v : pyval) : result (list pyval) :=
  match v with
  | PList l => Ok l
  | PDict d => Ok (map fst d)
  | PStr s => Ok (chars s)
  | _ => Raise (Exn TypeError
                    ("'" ++ type_name v ++ "' object is not iterable"))
  end.

(** ["list" in command] *)
Definition str_in (s : string) (l : list string) : bool :=
  existsb (String.eqb s) l.

(* ===================================================================== *)
(** ** The world outside the script *)

(** [subprocess.run(command, capture_output=True, text=True)]: either a
    [CompletedProcess], or an exception (the program cannot be started, its
    output cannot be decoded). *)
Inductive run_outcome : Type :=
| Completed (returncode : Z) (stdout stderr : string)
| RunRaises (e : exn).

(** [json.loads(text)]: a value, or [JSONDecodeError] with its message, or
    one of the other exceptions the decoder can raise ([ValueError] on an
    integer with too many digits, [RecursionError] on deep nesting). *)
Inductive loads_outcome : Type :=
| Decoded (v : pyval)
| DecodeError (msg : string)
| LoadsRaises (e : exn).

(** How [open(output_file, "w", newline="")] and the writes to the file
    behave: all succeed, the open raises, or the [k]-th call of [write]
    raises (the header is call 0). *)
Inductive io_behaviour : Type :=
| IoOk
| IoOpenFails (e : exn)
| IoWriteFails (k : nat) (e : exn).

Record Env : Type := {
  subprocess_run : list string -> run_outcome;
  json_loads : string -> loads_outcome;
  py_str : pyval -> string;
  joined_reprs : list pyval -> string;
  file_io : string -> io_behaviour
}.

(** The observable state of a run: what was printed, line by line, and the
    files on disk, by name. *)
Record state : Type := {
  printed : list string;
  files : list (string * string)
}.

Definition initial_state : state := {| printed := []; files := [] |}.

Fixpoint file_content (fs : list (string * string)) (name : string)
  : option string :=
  match fs with
  | [] => None
  | (n, c) :: fs' => if (n =? name) then Some c else file_content fs' name
  end.

(* --------------------------------------------------------------------- *)
(** *** The monad of the script *)

Definition M (A : Type) : Type := state -> result A * state.

Definition ret {A} (a : A) : M A := fun st => (Ok a, st).

Definition raise {A} (e : exn) : M A := fun st => (Raise e, st).

Definition bind {A B} (m : M A) (f : A -> M B) : M B :=
  fun st =>
    match m st with
    | (Ok a, st') => f a st'
    | (Raise e, st') => (Raise e, st')
    end.

Definition lift {A} (r : result A) : M A := fun st => (r, st).

Declare Scope py_scope.
Delimit Scope py_scope with py.
Notation "x <- c ;; k" := (bind c (fun x => k))
  (at level 61, c at next level, right associativity) : py_scope.
Notation "c ;;; k" := (bind c (fun _ => k))
  (at level 61, right associativity) : py_scope.

(** [print(line)] *)
Definition print (line : string) : M unit :=
  fun st => (Ok tt, {| printed := printed st ++ [line]; files := files st |}).

(** [try: body  except <classes> as e: handler(e)] *)
Definition try_except {A} (body : M A) (catches : exn_class -> bool)
           (handler : exn -> M A) : M A :=
  fun st =>
    match body st with
    | (Ok a, st') => (Ok a, st')
    | (Raise e, st') =>
        if catches (exn_cls e) then handler e st' else (Raise e, st')
    end.

Fixpoint remove_file (fs : list (string * string)) (name : string)
  : list (string * string) :=
  match fs with
  | [] => []
  | (n, c) :: fs' =>
      if (n =? name) then remove_file fs' name
      else (n, c) :: remove_file fs' name
  end.

(** The file [name] now holds [content]. *)
Definition put_file (name content : string) : M unit :=
  fun st =>
    (Ok tt,
     {| printed := printed st;
        files := (name, content) :: remove_file (files st) name |}).

(* ===================================================================== *)
(** ** The resource fetchers *)

Section Script.

Variable env : Env.

Definition call_subprocess (command : list string) : M (Z * string * string) :=
  match subprocess_run env command with
  | Completed rc out err => ret (rc, out, err)
  | RunRaises e => raise e
  end.

Definition call_json_loads (text : string) : M pyval :=
  match json_loads env text with
  | Decoded v => ret v
  | DecodeError msg => raise (Exn JSONDecodeError msg)
  | LoadsRaises e => raise e
  end.

(** [[] if "list" in command else {}] *)
Definition empty_for (command : list string) : pyval :=
  if str_in "list" command then PList [] else PDict [].

Definition run_oci_command (command : list string) : M pyval :=
  try_except
    (result <- call_subprocess command ;;
     let '(returncode, stdout, stderr) := result in
     if negb (returncode =? 0)%Z then
       print ("Error executing OCI CLI: " ++ stderr) ;;;
       ret (empty_for command)
     else
       v <- call_json_loads stdout ;;
       lift (py_get v (PStr "data") (PList [])))%py
    (fun c => exn_class_eqb c CalledProcessError
              || exn_class_eqb c JSONDecodeError)
    (fun e =>
       print ("Unexpected error: " ++ exn_msg e) ;;;
       ret (empty_for command))%py.

Definition pdb_list_command (profile compartment_id : string) : list string :=
  ["oci"; "db"; "pluggable-database"; "list"; "--limit"; "1000";
   "--compartment-id"; compartment_id; "--profile"; profile].

Definition database_list_command (profile compartment_id : string)
  : list string :=
  ["oci"; "db"; "database"; "list"; "--limit"; "2000";
   "--compartment-id"; compartment_id; "--profile"; profile].

Definition db_home_list_command (profile compartment_id : string)
  : list string :=
  ["oci"; "db"; "db-home"; "list"; "--limit"; "1000";
   "--compartment-id"; compartment_id; "--profile"; profile].

Definition compartment_get_command (profile compartment_id : string)
  : list string :=
  ["oci"; "iam"; "compartment"; "get";
   "--compartment-id"; compartment_id; "--profile"; profile].

Definition get_pdb_list (profile compartment_id : string) : M pyval :=
  (print "Fetching PDBs..." ;;;
   run_oci_command (pdb_list_command profile compartment_id))%py.

(** One step of the dict comprehension of [get_cdb_mapping]: key, then
    value, then the store. *)
Definition cdb_entry (acc : list (pyval * pyval)) (db : pyval)
  : result (list (pyval * pyval)) :=
  (k <- py_get db (PStr "id") (PStr "Unknown ID") ;;
   name <- py_get db (PStr "db-name") (PStr "Unknown CDB") ;;
   home <- py_get db (PStr "db-home-id") (PStr "Unknown DB Home") ;;
   py_setitem acc k
     (PDict [(PStr "CDB_Name", name); (PStr "DB_Home_ID", home)]))%result.

Definition home_entry (acc : list (pyval * pyval)) (home : pyval)
  : result (list (pyval * pyval)) :=
  (k <- py_get home (PStr "id") (PStr "Unknown DB Home") ;;
   name <- py_get home (PStr "display-name") (PStr "Unknown Oracle Home") ;;
   py_setitem acc k name)%result.

(** [{key(x): value(x) for x in items}], left to right. *)
Fixpoint dict_comprehension
         (entry : list (pyval * pyval) -> pyval -> result (list (pyval * pyval)))
         (acc : list (pyval * pyval)) (items : list pyval)
  : result (list (pyval * pyval)) :=
  match items with
  | [] => Ok acc
  | x :: items' =>
      (acc' <- entry acc x ;;
       dict_comprehension entry acc' items')%result
  end.

Definition build_dict
           (entry : list (pyval * pyval) -> pyval -> result (list (pyval * pyval)))
           (source : pyval) : result pyval :=
  (items <- py_iter source ;;
   d <- dict_comprehension entry [] items ;;
   Ok (PDict d))%result.

Definition get_cdb_mapping (profile compartment_id : string) : M pyval :=
  (print "Fetching CDBs..." ;;;
   databases <- run_oci_command (database_list_command profile compartment_id) ;;
   lift (build_dict cdb_entry databases))%py.

Definition get_db_home_mapping (profile compartment_id : string) : M pyval :=
  (print "Fetching DB Homes..." ;;;
   db_homes <- run_oci_command (db_home_list_command profile compartment_id) ;;
   lift (build_dict home_entry db_homes))%py.

Definition get_compartment_name (profile compartment_id : string) : M pyval :=
  (print "Fetching Compartment Name..." ;;;
   compartment <- run_oci_command
                    (compartment_get_command profile compartment_id) ;;
   if truthy compartment
   then lift (py_get compartment (PStr "name") (PStr "Unknown Compartment"))
   else ret (PStr "Unknown Compartment"))%py.

End Script.

(* ===================================================================== *)
(** ** The join *)

(** The six-entry dict that [extract_pdb_cdb_mapping] displays. *)
Definition row_dict (pdb_name cdb_name oracle_home compartment_name cdb_id
                     compartment_id : pyval) : pyval :=
  PDict [(PStr "PDB_Name", pdb_name);
         (PStr "CDB_Name", cdb_name);
         (PStr "Oracle_Home", oracle_home);
         (PStr "Compartment_Name", compartment_name);
         (PStr "CDB_ID", cdb_id);
         (PStr "Compartment_ID", compartment_id)].

(** Looking up the attribute [get] of [d], which comes before the
    arguments of the call are evaluated. *)
Definition load_get (d : pyval) : result unit :=
  match d with
  | PDict _ => Ok tt
  | _ => Raise (no_attribute d "get")
  end.

(** The element expression of the list comprehension, for one [pdb]; the
    values of the display are evaluated top to bottom, and in a call
    [a.get(x, y)] the attribute of [a] is looked up before [x] is
    evaluated. *)
Definition mapping_row (cdb_mapping db_home_mapping compartment_id
                        compartment_name pdb : pyval) : result pyval :=
  (pdb_name <- py_get pdb (PStr "pdb-name") (PStr "Unknown PDB") ;;
   _ <- load_get cdb_mapping ;;
   k1 <- py_get pdb (PStr "container-database-id") (PStr "Unknown CDB") ;;
   cdb1 <- py_get cdb_mapping k1 (PDict []) ;;
   cdb_name <- py_get cdb1 (PStr "CDB_Name") (PStr "Unknown CDB") ;;
   _ <- load_get db_home_mapping ;;
   _ <- load_get cdb_mapping ;;
   k2 <- py_get pdb (PStr "container-database-id") PNone ;;
   cdb2 <- py_get cdb_mapping k2 (PDict []) ;;
   home_id <- py_get cdb2 (PStr "DB_Home_ID") PNone ;;
   oracle_home <- py_get db_home_mapping home_id (PStr "Unknown Oracle Home") ;;
   cdb_id <- py_get pdb (PStr "container-database-id") (PStr "Unknown CDB") ;;
   Ok (row_dict pdb_name cdb_name oracle_home compartment_name cdb_id
                compartment_id))%result.

Definition extract_pdb_cdb_mapping
           (pdbs cdb_mapping db_home_mapping compartment_id compartment_name
            : pyval) : result pyval :=
  (items <- py_iter pdbs ;;
   rows <- rmapM (mapping_row cdb_mapping db_home_mapping compartment_id
                              compartment_name) items ;;
   Ok (PList rows))%result.

(* ===================================================================== *)
(** ** The csv module, as the script uses it

    [csv.DictWriter(csvfile, fieldnames=...)] with the default dialect
    ([excel]: delimiter [,], quote character the double quote, doubled
    quotes, line terminator CR LF, [QUOTE_MINIMAL]), the default
    [restval] (the empty string) and the default [extrasaction]
    (raise). *)

Definition dquote : ascii := "034"%char.
Definition comma : ascii := ","%char.
Definition CR : ascii := "013"%char.
Definition LF : ascii := "010"%char.

Definition lineterminator : string := String CR (String LF "").

(** The characters that force a field into quotes: the delimiter, the quote
    character, and the characters of the line terminator. *)
Definition special (c : ascii) : bool :=
  (c =? comma)%char || (c =? dquote)%char || (c =? CR)%char || (c =? LF)%char.

Fixpoint needs_quotes (s : string) : bool :=
  match s with
  | EmptyString => false
  | String c s' => special c || needs_quotes s'
  end.

(** The field text with every quote character doubled. *)
Fixpoint double_quotes (s : string) : string :=
  match s with
  | EmptyString => EmptyString
  | String c s' =>
      if (c =? dquote)%char
      then String dquote (String dquote (double_quotes s'))
      else String c (double_quotes s')
  end.

(** [join_append_data] of the C writer *)
Definition quote_field (s : string) : string :=
  if needs_quotes s
  then String dquote (double_quotes s ++ String dquote "")
  else s.

Fixpoint join_fields (fs : list string) : string :=
  match fs with
  | [] => ""
  | [f] => f
  | f :: fs' => f ++ String comma (join_fields fs')
  end.

Section Csv.

Variable env : Env.

(** What the writer makes of a field value: [None] is the empty field, a
    string is itself, anything else goes through [str]. *)
Definition field_text (v : pyval) : string :=
  match v with
  | PNone => ""
  | PStr s => s
  | _ => py_str env v
  end.

(** [writer.writerow(fields)]: the text handed to [csvfile.write].  A record
    of one empty field is written as a pair of quotes. *)
Definition writerow (fields : list pyval) : string :=
  let record := join_fields (map (fun v => quote_field (field_text v)) fields) in
  (match fields, record with
   | _ :: _, EmptyString => String dquote (String dquote "")
   | _, _ => record
   end) ++ lineterminator.

Definition fieldnames : list string :=
  ["PDB_Name"; "CDB_Name"; "Oracle_Home"; "Compartment_Name"; "CDB_ID";
   "Compartment_ID"].

Definition is_fieldname (k : pyval) : bool :=
  existsb (fun f => key_eqb (PStr f) k) fieldnames.

(** [DictWriter._dict_to_list]: a key outside the field names is an error,
    a missing field is the empty string.  The wrong keys are a set; the
    text that names them, [", ".join([repr(x) for x in wrong_fields])] in
    the iteration order of the set, is [joined_reprs]. *)
Definition dict_to_list (rowdict : pyval) : result (list pyval) :=
  match rowdict with
  | PDict kvs =>
      match filter (fun k => negb (is_fieldname k)) (map fst kvs) with
      | [] =>
          Ok (map (fun f => match dict_lookup kvs (PStr f) with
                            | Some v => v
                            | None => PStr ""
                            end) fieldnames)
      | wrong_fields =>
          Raise (Exn ValueError
                     ("dict contains fields not in fieldnames: "
                      ++ joined_reprs env wrong_fields))
      end
  | _ => Raise (no_attribute rowdict "keys")
  end.

(** [open(output_file, "w", newline="")]: the file is created or emptied. *)
Definition open_w (name : string) : M unit :=
  match file_io env name with
  | IoOpenFails e => raise e
  | _ => put_file name ""
  end.

(** The [k]-th call of [csvfile.write] *)
Definition file_write (name : string) (k : nat) (text : string) : M unit :=
  fun st =>
    let append :=
      put_file name
               (match file_content (files st) name with
                | Some c => c ++ text
                | None => text
                end) st in
    match file_io env name with
    | IoWriteFails k' e => if Nat.eqb k' k then (Raise e, st) else append
    | _ => append
    end.

(** [writer.writeheader()] *)
Definition writeheader (name : string) : M unit :=
  file_write name 0 (writerow (map PStr fieldnames)).

(** [writer.writerows(rowdicts)], row by row; [k] counts the calls of
    [write]. *)
Fixpoint writerows (name : string) (k : nat) (rowdicts : list pyval) : M unit :=
  match rowdicts with
  | [] => ret tt
  | r :: rs =>
      (fields <- lift (dict_to_list r) ;;
       file_write name k (writerow fields) ;;;
       writerows name (S k) rs)%py
  end.

Definition save_to_csv (mapping : pyval) (output_file : string) : M unit :=
  try_except
    (open_w output_file ;;;
     writeheader output_file ;;;
     rowdicts <- lift (py_iter mapping) ;;
     writerows output_file 1 rowdicts ;;;
     print ("CSV generated: " ++ output_file))%py
    is_Exception
    (fun e => print ("Error saving CSV: " ++ exn_msg e)).

(* ===================================================================== *)
(** ** The entry point *)

Definition output_file_name : string := "pdb_cdb_mapping.csv".

(** [main], after [parse_args] has produced the two required arguments. *)
Definition main (profile compartment_id : string) : M unit :=
  (print "Starting extraction..." ;;;
   pdbs <- get_pdb_list env profile compartment_id ;;
   if negb (truthy pdbs) then
     print "No PDB data found. Check OCI CLI command and permissions."
   else
     cdb_mapping <- get_cdb_mapping env profile compartment_id ;;
     db_home_mapping <- get_db_home_mapping env profile compartment_id ;;
     compartment_name <- get_compartment_name env profile compartment_id ;;
     mapping <- lift (extract_pdb_cdb_mapping pdbs cdb_mapping db_home_mapping
                                              (PStr compartment_id)
                                              compartment_name) ;;
     save_to_csv mapping output_file_name ;;;
     print "Process completed successfully.")%py.

End Csv.

(** The exit status of the interpreter: 0 when [main] returns, 1 when an
    exception leaves it. *)
Definition exit_status {A} (r : result A) : Z :=
  match r with
  | Ok _ => 0
  | Raise _ => 1
  end.

(* ===================================================================== *)
(** ** Reading the file back

    The script has no reader.  To state what "reading the file back as CSV"
    gives, this is [csv.reader(f)] of the same module and dialect over
    [f = open(name, newline="")]: the file yields its lines with their
    terminators, and the reader feeds every character of a line, then an
    end-of-line mark, to the state machine of [Reader_iternext] and
    [parse_process_char] ([field_size_limit] is taken to be out of reach;
    without an escape character the three escape states are never entered
    and are left out). *)

(** Iterating a text file opened with [newline=""]: lines end at LF, at CR
    LF, or at a CR that no LF follows, and keep their terminator; [cur] is
    the part of the current line already seen. *)
Fixpoint file_lines_from (cur text : string) : list string :=
  match text with
  | EmptyString => match cur with EmptyString => [] | _ => [cur] end
  | String c rest =>
      let line := cur ++ String c "" in
      if (c =? LF)%char then line :: file_lines_from "" rest
      else if (c =? CR)%char then
        match rest with
        | String c' _ =>
            if (c' =? LF)%char then file_lines_from line rest
            else line :: file_lines_from "" rest
        | EmptyString => line :: file_lines_from "" rest
        end
      else file_lines_from line rest
  end.

Definition file_lines (text : string) : list string := file_lines_from "" text.

Inductive parser_state : Type :=
| START_RECORD
| START_FIELD
| IN_FIELD
| IN_QUOTED_FIELD
| QUOTE_IN_QUOTED_FIELD
| EAT_CRNL.

Record reader : Type := {
  rd_state : parser_state;
  rd_field : string;          (* the field being collected *)
  rd_fields : list string     (* the fields of the record so far *)
}.

(** [parse_reset] *)
Definition parse_reset : reader :=
  {| rd_state := START_RECORD; rd_field := ""; rd_fields := [] |}.

Definition parse_add_char (r : reader) (c : ascii) (s : parser_state) : reader :=
  {| rd_state := s; rd_field := rd_field r ++ String c "";
     rd_fields := rd_fields r |}.

Definition parse_save_field (r : reader) (s : parser_state) : reader :=
  {| rd_state := s; rd_field := ""; rd_fields := rd_fields r ++ [rd_field r] |}.

Definition goto (r : reader) (s : parser_state) : reader :=
  {| rd_state := s; rd_field := rd_field r; rd_fields := rd_fields r |}.

Definition is_newline (c : ascii) : bool := (c =? LF)%char || (c =? CR)%char.

Definition start_field (r : reader) (c : ascii) : reader :=
  if is_newline c then parse_save_field r EAT_CRNL
  else if (c =? dquote)%char then goto r IN_QUOTED_FIELD
  else if (c =? comma)%char then parse_save_field r START_FIELD
  else parse_add_char r c IN_FIELD.

(** [parse_process_char] on a character of the line *)
Definition process_char (r : reader) (c : ascii) : result reader :=
  match rd_state r with
  | START_RECORD =>
      if is_newline c then Ok (goto r EAT_CRNL) else Ok (start_field r c)
  | START_FIELD => Ok (start_field r c)
  | IN_FIELD =>
      if is_newline c then Ok (parse_save_field r EAT_CRNL)
      else if (c =? comma)%char then Ok (parse_save_field r START_FIELD)
      else Ok (parse_add_char r c IN_FIELD)
  | IN_QUOTED_FIELD =>
      if (c =? dquote)%char then Ok (goto r QUOTE_IN_QUOTED_FIELD)
      else Ok (parse_add_char r c IN_QUOTED_FIELD)
  | QUOTE_IN_QUOTED_FIELD =>
      if (c =? dquote)%char then Ok (parse_add_char r c IN_QUOTED_FIELD)
      else if (c =? comma)%char then Ok (parse_save_field r START_FIELD)
      else if is_newline c then Ok (parse_save_field r EAT_CRNL)
      else Ok (parse_add_char r c IN_FIELD)
  | EAT_CRNL =>
      if is_newline c then Ok r
      else Raise (Exn CsvError
                      ("new-line character seen in unquoted field - "
                       ++ "do you need to open the file with newline=''?"))
  end.

(** [parse_process_char] on the end-of-line mark *)
Definition process_eol (r : reader) : reader :=
  match rd_state r with
  | START_RECORD => r
  | START_FIELD | IN_FIELD | QUOTE_IN_QUOTED_FIELD =>
      parse_save_field r START_RECORD
  | IN_QUOTED_FIELD => r
  | EAT_CRNL => goto r START_RECORD
  end.

Fixpoint process_chars (r : reader) (line : string) : result reader :=
  match line with
  | EmptyString => Ok r
  | String c line' =>
      (r' <- process_char r c ;; process_chars r' line')%result
  end.

Definition at_record_start (r : reader) : bool :=
  match rd_state r with
  | START_RECORD => true
  | _ => false
  end.

(** After the end-of-line mark: a record is complete when the machine is
    back in [START_RECORD]; otherwise the next line continues it. *)
Definition end_of_line (r : reader)
           (next : reader -> result (list (list string)))
  : result (list (list string)) :=
  let r' := process_eol r in
  if at_record_start r'
  then (rows <- next parse_reset ;; Ok (rd_fields r' :: rows))%result
  else next r'.

(** End of input: an unfinished record is returned as it stands. *)
Definition end_of_input (r : reader) : result (list (list string)) :=
  match rd_state r, rd_field r with
  | IN_QUOTED_FIELD, _ | _, String _ _ =>
      Ok [rd_fields (parse_save_field r START_RECORD)]
  | _, EmptyString => Ok []
  end.

Fixpoint read_records (r : reader) (lines : list string)
  : result (list (list string)) :=
  match lines with
  | [] => end_of_input r
  | line :: lines' =>
      (r' <- process_chars r line ;;
       end_of_line r' (fun r'' => read_records r'' lines'))%result
  end.

(** [list(csv.reader(open(name, newline="")))] on the content of the file *)
Definition csv_reader (text : string) : result (list (list string)) :=
  read_records parse_reset (file_lines text).

(** One pass over the text that does what [csv_reader] does line by line:
    [inline] tells whether the current line has characters already, and a
    line ends after LF, and after a CR that no LF follows. *)
Definition starts_with_LF (text : string) : bool :=
  match text with
  | String c _ => (c =? LF)%char
  | EmptyString => false
  end.

Definition ends_line (c : ascii) (rest : string) : bool :=
  (c =? LF)%char || ((c =? CR)%char && negb (starts_with_LF rest)).

Fixpoint scan (r : reader) (inline : bool) (text : string)
  : result (list (list string)) :=
  match text with
  | EmptyString =>
      if inline then end_of_line r end_of_input else end_of_input r
  | String c rest =>
      match process_char r c with
      | Raise e => Raise e
      | Ok r' =>
          if ends_line c rest
          then end_of_line r' (fun r'' => scan r'' false rest)
          else scan r' true rest
      end
  end.

(** [writerow] on fields that are text already. *)
Definition render (fields : list string) : string :=
  (match fields, join_fields (map quote_field fields) with
   | _ :: _, EmptyString => String dquote (String dquote "")
   | _, record => record
   end) ++ lineterminator.

(** The reader about to start a field, [done] being the fields of the
    record so far; [first] when it is the first field of the record. *)
Definition before_field (first : bool) (done : list string) : reader :=
  {| rd_state := if first then START_RECORD else START_FIELD;
     rd_field := "";
     rd_fields := done |}.

Definition in_state (s : parser_state) (field : string) (done : list string)
  : reader :=
  {| rd_state := s; rd_field := field; rd_fields := done |}.

(* ===================================================================== *)
(** ** The shapes of the data model

    The script checks no schema; these are the shapes the inventory data
    have when the control plane answers as documented, and the weaker
    conditions on which the steps of the script do not raise. *)

Definition is_dict (v : pyval) : bool :=
  match v with
  | PDict _ => true
  | _ => false
  end.

Definition is_str (v : pyval) : bool :=
  match v with
  | PStr _ => true
  | _ => false
  end.

(** [d.get(k, default)] on the entries of a dict and a hashable key *)
Definition get_or (kvs : list (pyval * pyval)) (k default : pyval) : pyval :=
  match dict_lookup kvs k with
  | Some v => v
  | None => default
  end.

Definition container_database_id : pyval := PStr "container-database-id".

(** A PDB record: an object whose CDB link, when present, is a scalar. *)
Definition pdb_record (pdb : pyval) : bool :=
  match pdb with
  | PDict kvs => hashable (get_or kvs container_database_id PNone)
  | _ => false
  end.

(** An entry of the CDB mapping: an object whose home link is a scalar. *)
Definition cdb_entry_shape (e : pyval) : bool :=
  match e with
  | PDict kvs => hashable (get_or kvs (PStr "DB_Home_ID") PNone)
  | _ => false
  end.

Definition cdb_mapping_shape (cdb_mapping : pyval) : bool :=
  match cdb_mapping with
  | PDict es => forallb (fun p => cdb_entry_shape (snd p)) es
  | _ => false
  end.

(** The value of [mapping_row] when no [get] raises. *)
Definition joined_row (cdb_mapping db_home_mapping pdb : list (pyval * pyval))
           (compartment_id compartment_name : pyval) : pyval :=
  let entry k :=
    match get_or cdb_mapping k (PDict []) with
    | PDict e => e
    | _ => []
    end in
  row_dict
    (get_or pdb (PStr "pdb-name") (PStr "Unknown PDB"))
    (get_or (entry (get_or pdb container_database_id (PStr "Unknown CDB")))
            (PStr "CDB_Name") (PStr "Unknown CDB"))
    (get_or db_home_mapping
            (get_or (entry (get_or pdb container_database_id PNone))
                    (PStr "DB_Home_ID") PNone)
            (PStr "Unknown Oracle Home"))
    compartment_name
    (get_or pdb container_database_id (PStr "Unknown CDB"))
    compartment_id.

(** The value a row holds under a column name. *)
Definition column (row : pyval) (name : string) : option pyval :=
  match row with
  | PDict kvs => dict_lookup kvs (PStr name)
  | _ => None
  end.

(** A MappingRow: the six values of a row, by column. *)
Record MappingRow : Type := {
  PDB_Name : pyval;
  CDB_Name : pyval;
  Oracle_Home : pyval;
  Compartment_Name : pyval;
  CDB_ID : pyval;
  Compartment_ID : pyval
}.

Definition mapping_row_dict (m : MappingRow) : pyval :=
  row_dict (PDB_Name m) (CDB_Name m) (Oracle_Home m) (Compartment_Name m)
           (CDB_ID m) (Compartment_ID m).

Definition mapping_row_values (m : MappingRow) : list pyval :=
  [PDB_Name m; CDB_Name m; Oracle_Home m; Compartment_Name m; CDB_ID m;
   Compartment_ID m].

(** The rows of the data model hold text in every column. *)
Definition text_row (m : MappingRow) : bool :=
  forallb is_str (mapping_row_values m).

(** A record whose attributes are scalars. *)
Definition flat_record (v : pyval) : bool :=
  match v with
  | PDict kvs => forallb (fun p => hashable (snd p)) kvs
  | _ => false
  end.

(** What the get operation delivers: an object, or nothing. *)
Definition record_or_nothing (v : pyval) : bool :=
  is_dict v || negb (truthy v).

(** ** Vocabulary for the statements *)

(** [st] with [lines] printed after what it had. *)
Definition log (lines : list string) (st : state) : state :=
  {| printed := printed st ++ lines; files := files st |}.

(** [cmd] is answered with the value [v]: [run_oci_command] returns [v],
    whatever was printed before, prints some lines and touches no file. *)
Definition fetches (env : Env) (cmd : list string) (v : pyval) : Prop :=
  exists lines, forall st, run_oci_command env cmd st = (Ok v, log lines st).

(** [row], passed to [DictWriter], has no key outside the field names. *)
Definition row_accepted (row : pyval) : bool :=
  match row with
  | PDict kvs => forallb is_fieldname (map fst kvs)
  | _ => false
  end.

(** The values [DictWriter] writes for an accepted row. *)
Definition row_values (row : pyval) : list pyval :=
  match row with
  | PDict kvs => map (fun f => get_or kvs (PStr f) (PStr "")) fieldnames
  | _ => []
  end.

Fixpoint concat_strings (l : list string) : string :=
  match l with
  | [] => ""
  | s :: l' => s ++ concat_strings l'
  end.

(** The text of a file of records: one [writerow] per record. *)
Definition csv_text (env : Env) (records : list (list pyval)) : string :=
  concat_strings (map (writerow env) records).

Definition header : list pyval := map PStr fieldnames.

(** The same services, with the output file behaving as [io]. *)
Definition with_file_io (env : Env) (io : io_behaviour) : Env :=
  {| subprocess_run := subprocess_run env;
     json_loads := json_loads env;
     py_str := py_str env;
     joined_reprs := joined_reprs env;
     file_io := fun _ => io |}.

(** The exception a behaviour of the file raises while a header and [n]
    rows are written, if any. *)
Definition io_error (io : io_behaviour) (n : nat) : option exn :=
  match io with
  | IoOk => None
  | IoOpenFails e => Some e
  | IoWriteFails k e => if Nat.leb k n then Some e else None
  end.

(** [main] up to the call of [save_to_csv]: [None] when the run stops for
    want of PDBs, the rows to write otherwise. *)
Definition main_until_write (env : Env) (profile compartment_id : string)
  : M (option pyval) :=
  (print "Starting extraction..." ;;;
   pdbs <- get_pdb_list env profile compartment_id ;;
   if negb (truthy pdbs) then
     print "No PDB data found. Check OCI CLI command and permissions." ;;;
     ret None
   else
     cdb_mapping <- get_cdb_mapping env profile compartment_id ;;
     db_home_mapping <- get_db_home_mapping env profile compartment_id ;;
     compartment_name <- get_compartment_name env profile compartment_id ;;
     mapping <- lift (extract_pdb_cdb_mapping pdbs cdb_mapping db_home_mapping
                                              (PStr compartment_id)
                                              compartment_name) ;;
     ret (Some mapping))%py.

(** The file as the interface describes it: the header line with the six
    column names, and per MappingRow a line of its six fields in the order
    of the columns, separated by commas. *)
Definition header_line : string :=
  "PDB_Name,CDB_Name,Oracle_Home,Compartment_Name,CDB_ID,Compartment_ID"
  ++ lineterminator.

Definition data_line (env : Env) (m : MappingRow) : string :=
  quote_field (field_text env (PDB_Name m)) ++ "," ++
  quote_field (field_text env (CDB_Name m)) ++ "," ++
  quote_field (field_text env (Oracle_Home m)) ++ "," ++
  quote_field (field_text env (Compartment_Name m)) ++ "," ++
  quote_field (field_text env (CDB_ID m)) ++ "," ++
  quote_field (field_text env (Compartment_ID m)) ++ lineterminator.

(** ** Concrete services, for examples *)

(** A control plane with two PDBs, one CDB and one home; the compartment
    lookup fails.  The second PDB has no name and points to a CDB that is
    not listed.  The texts on the standard output are tokens that the
    decoder below knows. *)
Definition obj (attrs : list (string * pyval)) : pyval :=
  PDict (map (fun p => (PStr (fst p), snd p)) attrs).

Definition pdb_P1 : list (pyval * pyval) :=
  [(PStr "pdb-name", PStr "P1"); (PStr "container-database-id", PStr "cdb1")].

Definition pdb_orphan : list (pyval * pyval) :=
  [(PStr "container-database-id", PStr "cdb9")].

Definition sample_pdbs : list pyval := [PDict pdb_P1; PDict pdb_orphan].

Definition sample_databases : pyval :=
  PList [obj [("id", PStr "cdb1"); ("db-name", PStr "C1");
              ("db-home-id", PStr "h1")]].

Definition sample_db_homes : pyval :=
  PList [obj [("id", PStr "h1"); ("display-name", PStr "HOME1")]].

Definition cdb_C1 : list (pyval * pyval) :=
  [(PStr "CDB_Name", PStr "C1"); (PStr "DB_Home_ID", PStr "h1")].

Definition sample_cdb_mapping : list (pyval * pyval) :=
  [(PStr "cdb1", PDict cdb_C1)].

Definition sample_home_mapping : list (pyval * pyval) :=
  [(PStr "h1", PStr "HOME1")].

Definition sample_decoder (text : string) : loads_outcome :=
  if text =? "<pdbs>" then Decoded (obj [("data", PList sample_pdbs)])
  else if text =? "<cdbs>" then Decoded (obj [("data", sample_databases)])
  else if text =? "<homes>" then Decoded (obj [("data", sample_db_homes)])
  else DecodeError "Expecting value: line 1 column 1 (char 0)".

Definition sample_cli (command : list string) : run_outcome :=
  if str_in "pluggable-database" command then Completed 0 "<pdbs>" ""
  else if str_in "database" command then Completed 0 "<cdbs>" ""
  else if str_in "db-home" command then Completed 0 "<homes>" ""
  else Completed 1 "" "ServiceError: NotAuthorizedOrNotFound".

Definition sample_env : Env :=
  {| subprocess_run := sample_cli;
     json_loads := sample_decoder;
     py_str := fun _ => "?";
     joined_reprs := fun _ => "?";
     file_io := fun _ => IoOk |}.

(** The same control plane when no PDB is visible. *)
Definition empty_env : Env :=
  {| subprocess_run := fun _ => Completed 0 "<nothing>" "";
     json_loads := fun _ => Decoded (obj [("data", PList [])]);
     py_str := fun _ => "?";
     joined_reprs := fun _ => "?";
     file_io := fun _ => IoOk |}.

(** A client that fails on every command. *)
Definition failing_env : Env :=
  {| subprocess_run := fun _ => Completed 1 "" "ERROR: profile not found";
     json_loads := sample_decoder;
     py_str := fun _ => "?";
     joined_reprs := fun _ => "?";
     file_io := fun _ => IoOk |}.

Definition disk_full : exn := Exn OSError "[Errno 28] No space left on device".

Definition sample_profile : string := "DEFAULT".

Definition sample_compartment : string := "ocid1.compartment.oc1..aaaa".

(** Two rows of text; the first has a comma, a quote and a line break in
    its fields. *)
Definition sample_rows : list MappingRow :=
  [ {| PDB_Name := PStr ("P" ++ String dquote ",1");
       CDB_Name := PStr ("C" ++ String LF "1");
       Oracle_Home := PStr "HOME1";
       Compartment_Name := PStr "Prod";
       CDB_ID := PStr "cdb1";
       Compartment_ID := PStr sample_compartment |};
    {| PDB_Name := PStr "";
       CDB_Name := PStr "Unknown CDB";
       Oracle_Home := PStr "Unknown Oracle Home";
       Compartment_Name := PStr "Prod";
       CDB_ID := PStr "cdb9";
       Compartment_ID := PStr sample_compartment |} ].

(** ** Vocabulary for the mappings and the failing client *)

(** [record.get(name, default)] on a record *)
Definition attr_or (record : pyval) (name : string) (default : pyval) : pyval :=
  match record with
  | PDict kvs => get_or kvs (PStr name) default
  | _ => default
  end.

(** The key and the value that the comprehension of [get_cdb_mapping]
    computes for a database record. *)
Definition database_key (db : pyval) : pyval :=
  attr_or db "id" (PStr "Unknown ID").

Definition database_entry (db : pyval) : pyval :=
  PDict [(PStr "CDB_Name", attr_or db "db-name" (PStr "Unknown CDB"));
         (PStr "DB_Home_ID", attr_or db "db-home-id" (PStr "Unknown DB Home"))].

(** The same for a home record and [get_db_home_mapping]. *)
Definition home_key (home : pyval) : pyval :=
  attr_or home "id" (PStr "Unknown DB Home").

Definition home_name (home : pyval) : pyval :=
  attr_or home "display-name" (PStr "Unknown Oracle Home").

(** The last element of [l] whose key equals [k]. *)
Fixpoint last_with_key (key_of : pyval -> pyval) (k : pyval) (l : list pyval)
  : option pyval :=
  match l with
  | [] => None
  | x :: l' =>
      match last_with_key key_of k l' with
      | Some y => Some y
      | None => if key_eqb (key_of x) k then Some x else None
      end
  end.

(** What the two comprehensions need of a record of their list: an object
    ([get] is called on it) whose id, when it has one, is a scalar (it
    becomes a key).  The other attributes may hold anything: objects,
    lists. *)
Definition keyed_record (record : pyval) : bool :=
  match record with
  | PDict kvs => hashable (get_or kvs (PStr "id") PNone)
  | _ => false
  end.

(** What the join needs of a PDB, the CDB mapping being built from
    [databases]: an object whose link to a database, when it has one, is a
    scalar, and if a database record is filed under that link (under
    [None] for a PDB without link, as line 47 looks it up), the link of
    that record to its home is a scalar too. *)
Definition pdb_joinable (databases : list pyval) (pdb : pyval) : bool :=
  match pdb with
  | PDict kvs =>
      let link := get_or kvs container_database_id PNone in
      hashable link
      && match last_with_key database_key link databases with
         | Some db => hashable (attr_or db "db-home-id" (PStr "Unknown DB Home"))
         | None => true
         end
  | _ => false
  end.

(** [subprocess.run] returned on [cmd], and the client had failed: it
    exited with a status other than 0, or what it printed is not JSON.
    (When the client cannot be started, or what it prints cannot be
    decoded as text, [subprocess.run] raises instead.) *)
Definition client_fails (env : Env) (cmd : list string) : Prop :=
  exists rc out err,
    subprocess_run env cmd = Completed rc out err
    /\ (rc <> 0%Z \/ exists msg, json_loads env out = DecodeError msg).

(** The exceptions of the file, if any, are instances of [Exception]. *)
Definition raises_exceptions_only (io : io_behaviour) : bool :=
  match io with
  | IoOk => true
  | IoOpenFails e | IoWriteFails _ e => is_Exception (exn_cls e)
  end.

(** A client whose answer to the database list is a list of numbers. *)
Definition malformed_env : Env :=
  {| subprocess_run := sample_cli;
     json_loads := fun text =>
       if text =? "<cdbs>"
       then Decoded (obj [("data", PList [PInt 1; PInt 2])])
       else sample_decoder text;
     py_str := fun _ => "?";
     joined_reprs := fun _ => "?";
     file_io := fun _ => IoOk |}.

(** A client that prints a bare list, with no envelope around it. *)
Definition bare_list_env : Env :=
  {| subprocess_run := fun _ => Completed 0 "[]" "";
     json_loads := fun _ => Decoded (PList []);
     py_str := fun _ => "?";
     joined_reprs := fun _ => "?";
     file_io := fun _ => IoOk |}.

(** A client that cannot be started. *)
Definition missing_client : exn :=
  Exn OSError "[Errno 2] No such file or directory: 'oci'".

Definition absent_env : Env :=
  {| subprocess_run := fun _ => RunRaises missing_client;
     json_loads := sample_decoder;
     py_str := fun _ => "?";
     joined_reprs := fun _ => "?";
     file_io := fun _ => IoOk |}.

(** Two database records with the same id, and one without id or home. *)
Definition duplicate_databases : list pyval :=
  [obj [("id", PStr "cdb1"); ("db-name", PStr "OLD"); ("db-home-id", PStr "h0")];
   obj [("db-name", PStr "NOID")];
   obj [("id", PStr "cdb1"); ("db-name", PStr "NEW"); ("db-home-id", PStr "h1")]].

(** One home with an id and one without. *)
Definition anonymous_homes : list pyval :=
  [obj [("id", PStr "h1"); ("display-name", PStr "HOME1")];
   obj [("display-name", PStr "NOWHERE")]].

(** A control plane that answers with these two lists. *)
Definition quirky_env : Env :=
  {| subprocess_run := sample_cli;
     json_loads := fun text =>
       if text =? "<cdbs>"
       then Decoded (obj [("data", PList duplicate_databases)])
       else if text =? "<homes>"
       then Decoded (obj [("data", PList anonymous_homes)])
       else sample_decoder text;
     py_str := fun _ => "?";
     joined_reprs := fun _ => "?";
     file_io := fun _ => IoOk |}.

Definition pdb_noid : list (pyval * pyval) :=
  [(PStr "pdb-name", PStr "P2"); (PStr "container-database-id", PStr "Unknown ID")].

Definition pdb_null_name : list (pyval * pyval) :=
  [(PStr "pdb-name", PNone); (PStr "container-database-id", PStr "cdb1")].

(** A row with a column that is not a field name. *)
Definition row_with_extra : pyval :=
  obj [("PDB_Name", PStr "P3"); ("Owner", PStr "nobody")].

(** A row that has two of the six columns only. *)
Definition short_row : pyval :=
  obj [("CDB_Name", PStr "C1"); ("PDB_Name", PStr "P1")].


(** A row as the join makes it for a PDB whose pdb-name is null. *)
Definition row_with_null_name : MappingRow :=
  {| PDB_Name := PNone;
     CDB_Name := PStr "C1";
     Oracle_Home := PStr "HOME1";
     Compartment_Name := PStr "Prod";
     CDB_ID := PStr "cdb1";
     Compartment_ID := PStr sample_compartment |}.

(** A PDB record as the control plane sends it, with attributes that are
    objects and lists. *)
Definition pdb_tagged : list (pyval * pyval) :=
  [(PStr "pdb-name", PStr "P1");
   (PStr "container-database-id", PStr "cdb1");
   (PStr "freeform-tags", obj [("owner", PStr "dba")]);
   (PStr "defined-tags", obj [("Oracle-Tags", obj [("CreatedBy", PStr "me")])]);
   (PStr "connection-strings",
    obj [("pdb-default", PStr "host:1521/p1");
         ("all-connection-strings", obj [("pdbDefault", PStr "host:1521/p1")])]);
   (PStr "pdb-node-level-details", PList [obj [("node-name", PStr "n1")]])].

Definition tagged_pdbs : list pyval := [PDict pdb_tagged; PDict pdb_orphan].

(** The sample control plane, answering the PDB list with these records. *)
Definition tagged_env : Env :=
  {| subprocess_run := sample_cli;
     json_loads := fun text =>
       if text =? "<pdbs>"
       then Decoded (obj [("data", PList tagged_pdbs)])
       else sample_decoder text;
     py_str := fun _ => "?";
     joined_reprs := fun _ => "?";
     file_io := fun _ => IoOk |}.

(* ===================================================================== *)
(** * Properties *)

(** ** The join *)

Lemma py_get_dict (kvs : list (pyval * pyval)) (k default : pyval) :
  hashable k = true ->
  py_get (PDict kvs) k default = Ok (get_or kvs k default).
Proof.
  intros Hk. unfold py_get, get_or. now rewrite Hk.
Qed.

Lemma dict_lookup_forallb (P : pyval -> bool) (es : list (pyval * pyval))
      (k e : pyval) :
  forallb (fun p => P (snd p)) es = true ->
  dict_lookup es k = Some e ->
  P e = true.
Proof.
  induction es as [|[k' e'] es IH]; simpl; intros Hall Hk.
  - discriminate.
  - apply andb_true_iff in Hall as [He' Hes].
    destruct (key_eqb k' k).
    + now inversion Hk; subst.
    + now apply IH.
Qed.

Lemma cdb_entry_of_mapping (es : list (pyval * pyval)) (k : pyval) :
  cdb_mapping_shape (PDict es) = true ->
  cdb_entry_shape (get_or es k (PDict [])) = true.
Proof.
  intros Hes. unfold get_or.
  destruct (dict_lookup es k) as [e|] eqn:Hk.
  - exact (dict_lookup_forallb cdb_entry_shape es k e Hes Hk).
  - reflexivity.
Qed.

Lemma pdb_key_hashable (kvs : list (pyval * pyval)) (default : pyval) :
  pdb_record (PDict kvs) = true ->
  hashable default = true ->
  hashable (get_or kvs container_database_id default) = true.
Proof.
  unfold pdb_record, get_or.
  now destruct (dict_lookup kvs container_database_id).
Qed.

(** On data of the documented shapes no [get] of the row expression raises,
    and the row is [joined_row]. *)
Lemma mapping_row_joined (es hs kvs : list (pyval * pyval))
      (compartment_id compartment_name : pyval) :
  pdb_record (PDict kvs) = true ->
  cdb_mapping_shape (PDict es) = true ->
  mapping_row (PDict es) (PDict hs) compartment_id compartment_name (PDict kvs)
  = Ok (joined_row es hs kvs compartment_id compartment_name).
Proof.
  intros Hpdb Hes.
  pose proof (pdb_key_hashable kvs (PStr "Unknown CDB") Hpdb eq_refl) as Hk1.
  pose proof (pdb_key_hashable kvs PNone Hpdb eq_refl) as Hk2.
  pose proof (cdb_entry_of_mapping es
                (get_or kvs container_database_id (PStr "Unknown CDB")) Hes)
    as He1.
  pose proof (cdb_entry_of_mapping es
                (get_or kvs container_database_id PNone) Hes) as He2.
  unfold mapping_row, joined_row.
  fold container_database_id.
  rewrite (py_get_dict kvs (PStr "pdb-name")) by reflexivity. cbn [rbind].
  rewrite !(py_get_dict kvs container_database_id) by reflexivity.
  cbn [rbind].
  rewrite (py_get_dict es _ (PDict []) Hk1). cbn [rbind].
  destruct (get_or es (get_or kvs container_database_id (PStr "Unknown CDB"))
                   (PDict [])) as [| | | | |e1]; try discriminate He1.
  rewrite (py_get_dict e1 (PStr "CDB_Name")) by reflexivity. cbn [rbind].
  rewrite (py_get_dict es _ (PDict []) Hk2). cbn [rbind].
  destruct (get_or es (get_or kvs container_database_id PNone) (PDict []))
    as [| | | | |e2]; try discriminate He2.
  rewrite (py_get_dict e2 (PStr "DB_Home_ID")) by reflexivity. cbn [rbind].
  cbn [cdb_entry_shape] in He2.
  rewrite (py_get_dict hs _ _ He2). cbn [rbind].
  reflexivity.
Qed.

Lemma rmapM_Forall2 {A B} (f : A -> result B) (l : list A) (bs : list B) :
  rmapM f l = Ok bs <-> Forall2 (fun a b => f a = Ok b) l bs.
Proof.
  revert bs. induction l as [|a l IH]; intros bs; simpl.
  - split.
    + intros H. inversion H. constructor.
    + intros H. inversion H. reflexivity.
  - split.
    + intros H. destruct (f a) as [b|e] eqn:Hfa; simpl in H; [|discriminate].
      destruct (rmapM f l) as [bs'|e] eqn:Hl; simpl in H; [|discriminate].
      inversion H; subst. constructor; [assumption|]. now apply IH.
    + intros H. inversion H as [|a' b l' bs' Hab Hrest]; subst.
      rewrite Hab. simpl. apply IH in Hrest. rewrite Hrest. reflexivity.
Qed.

Lemma rmapM_total {A B} (P : A -> Prop) (f : A -> result B) (l : list A) :
  (forall a, P a -> exists b, f a = Ok b) ->
  Forall P l ->
  exists bs, rmapM f l = Ok bs.
Proof.
  intros Hf Hl. induction Hl as [|a l Ha _ [bs IH]].
  - now exists [].
  - destruct (Hf a Ha) as [b Hb]. exists (b :: bs).
    simpl. rewrite Hb. simpl. rewrite IH. reflexivity.
Qed.


Lemma Forall2_length_eq {A B} (R : A -> B -> Prop) (l : list A) (bs : list B) :
  Forall2 R l bs -> length bs = length l.
Proof.
  induction 1; simpl; congruence.
Qed.

(** The join of a list of PDB records: one row per record, in order, and no
    exception. *)
Lemma extract_rows (l : list pyval) (es hs : list (pyval * pyval))
      (compartment_id compartment_name : pyval) :
  Forall (fun pdb => pdb_record pdb = true) l ->
  cdb_mapping_shape (PDict es) = true ->
  exists rows,
    extract_pdb_cdb_mapping (PList l) (PDict es) (PDict hs) compartment_id
                            compartment_name = Ok (PList rows)
    /\ Forall2 (fun pdb row =>
                  mapping_row (PDict es) (PDict hs) compartment_id
                              compartment_name pdb = Ok row) l rows.
Proof.
  intros Hl Hes.
  destruct (rmapM_total (fun pdb => pdb_record pdb = true)
              (mapping_row (PDict es) (PDict hs) compartment_id compartment_name)
              l) as [rows Hrows]; [|assumption|].
  - intros pdb Hpdb. destruct pdb as [| | | | |kvs]; try discriminate Hpdb.
    eexists. now apply mapping_row_joined.
  - exists rows. split.
    + unfold extract_pdb_cdb_mapping. cbn [py_iter rbind].
      rewrite Hrows. reflexivity.
    + now apply rmapM_Forall2.
Qed.

Lemma mapping_row_compartment (cdb_mapping db_home_mapping compartment_id
                               compartment_name pdb row : pyval) :
  mapping_row cdb_mapping db_home_mapping compartment_id compartment_name pdb
  = Ok row ->
  column row "Compartment_Name" = Some compartment_name
  /\ column row "Compartment_ID" = Some compartment_id.
Proof.
  unfold mapping_row. intros H.
  repeat match type of H with
         | rbind ?c _ = Ok _ =>
             destruct c; cbn [rbind] in H; [|discriminate H]
         end.
  inversion H; subst. split; reflexivity.
Qed.



(** C8. A PDB whose CDB is mapped, to an entry whose DB_Home_ID is not a
    key of the home mapping: the row has the name of that CDB and
    Oracle_Home "Unknown Oracle Home". *)
Theorem unmapped_home_gets_placeholder
        (es hs kvs e : list (pyval * pyval))
        (compartment_id compartment_name v cdb_name home_id : pyval) :
  pdb_record (PDict kvs) = true ->
  cdb_mapping_shape (PDict es) = true ->
  dict_lookup kvs container_database_id = Some v ->
  dict_lookup es v = Some (PDict e) ->
  dict_lookup e (PStr "CDB_Name") = Some cdb_name ->
  dict_lookup e (PStr "DB_Home_ID") = Some home_id ->
  dict_lookup hs home_id = None ->
  exists row,
    mapping_row (PDict es) (PDict hs) compartment_id compartment_name
                (PDict kvs) = Ok row
    /\ column row "CDB_Name" = Some cdb_name
    /\ column row "Oracle_Home" = Some (PStr "Unknown Oracle Home").
Proof.
  intros Hpdb Hes Hv Hentry Hname Hhome Hunmapped.
  eexists. split; [now apply mapping_row_joined|].
  unfold joined_row, get_or. rewrite Hv, Hentry, Hname, Hhome, Hunmapped.
  split; reflexivity.
Qed.

(** C9. The CDB_ID of a row is the container-database-id of its PDB as it
    is, and "Unknown CDB" for a PDB without that attribute. *)
Theorem cdb_id_is_copied
        (es hs kvs : list (pyval * pyval))
        (compartment_id compartment_name : pyval) :
  pdb_record (PDict kvs) = true ->
  cdb_mapping_shape (PDict es) = true ->
  exists row,
    mapping_row (PDict es) (PDict hs) compartment_id compartment_name
                (PDict kvs) = Ok row
    /\ column row "CDB_ID"
       = Some (match dict_lookup kvs container_database_id with
               | Some v => v
               | None => PStr "Unknown CDB"
               end).
Proof.
  intros Hpdb Hes.
  eexists. split; [now apply mapping_row_joined|]. reflexivity.
Qed.

(** C10. A PDB record without the pdb-name attribute gets the PDB_Name
    "Unknown PDB". *)
Theorem missing_pdb_name_placeholder
        (es hs kvs : list (pyval * pyval))
        (compartment_id compartment_name : pyval) :
  pdb_record (PDict kvs) = true ->
  cdb_mapping_shape (PDict es) = true ->
  dict_lookup kvs (PStr "pdb-name") = None ->
  exists row,
    mapping_row (PDict es) (PDict hs) compartment_id compartment_name
                (PDict kvs) = Ok row
    /\ column row "PDB_Name" = Some (PStr "Unknown PDB").
Proof.
  intros Hpdb Hes Hname.
  eexists. split; [now apply mapping_row_joined|].
  unfold joined_row, get_or. now rewrite Hname.
Qed.

(** C7. Every row of one join carries the same Compartment_Name and the
    same Compartment_ID: the two compartment arguments of the join. *)
Theorem compartment_columns_constant
        (l : list pyval) (es hs : list (pyval * pyval))
        (compartment_id compartment_name : pyval) :
  Forall (fun pdb => pdb_record pdb = true) l ->
  cdb_mapping_shape (PDict es) = true ->
  exists rows,
    extract_pdb_cdb_mapping (PList l) (PDict es) (PDict hs) compartment_id
                            compartment_name = Ok (PList rows)
    /\ length rows = length l
    /\ Forall (fun row =>
                 column row "Compartment_Name" = Some compartment_name
                 /\ column row "Compartment_ID" = Some compartment_id) rows.
Proof.
  intros Hl Hes.
  destruct (extract_rows l es hs compartment_id compartment_name Hl Hes)
    as (rows & Hrows & Hall).
  exists rows. split; [assumption|].
  split; [exact (Forall2_length_eq _ _ _ Hall)|].
  clear Hrows Hl. induction Hall as [|pdb row l rows Hrow _ IH].
  - constructor.
  - constructor; [|exact IH]. exact (mapping_row_compartment _ _ _ _ _ _ Hrow).
Qed.

(* ===================================================================== *)
(** ** The fetchers *)

Lemma log_log (a b : list string) (st : state) :
  log b (log a st) = log (a ++ b) st.
Proof.
  unfold log. simpl. now rewrite app_assoc.
Qed.

Lemma print_log (line : string) (st : state) :
  print line st = (Ok tt, log [line] st).
Proof. reflexivity. Qed.

(** A client that exits with a status other than 0: the error is printed and
    the empty value of the command is returned. *)
Lemma run_oci_command_exit_nonzero (env : Env) (cmd : list string)
      (rc : Z) (out err : string) (st : state) :
  subprocess_run env cmd = Completed rc out err ->
  rc <> 0%Z ->
  run_oci_command env cmd st
  = (Ok (empty_for cmd), log ["Error executing OCI CLI: " ++ err] st).
Proof.
  intros Hrun Hrc.
  unfold run_oci_command, try_except, bind, call_subprocess.
  rewrite Hrun. cbn [ret].
  apply Z.eqb_neq in Hrc. rewrite Hrc. reflexivity.
Qed.

(** A client that exits with status 0 and prints what is not JSON: the
    decoder's exception is caught, printed, and the empty value of the
    command is returned. *)
Lemma run_oci_command_not_json (env : Env) (cmd : list string)
      (out err msg : string) (st : state) :
  subprocess_run env cmd = Completed 0 out err ->
  json_loads env out = DecodeError msg ->
  run_oci_command env cmd st
  = (Ok (empty_for cmd), log ["Unexpected error: " ++ msg] st).
Proof.
  intros Hrun Hjson.
  unfold run_oci_command, try_except, bind, call_subprocess, call_json_loads.
  rewrite Hrun. cbn [ret]. cbn [Z.eqb negb]. rewrite Hjson. reflexivity.
Qed.

(** A client that exits with status 0 and prints JSON: the ["data"] member
    of the envelope, and [[]] when the envelope has none. *)
Lemma run_oci_command_json (env : Env) (cmd : list string)
      (out err : string) (v : pyval) (st : state) :
  subprocess_run env cmd = Completed 0 out err ->
  json_loads env out = Decoded v ->
  run_oci_command env cmd st
  = (match py_get v (PStr "data") (PList []) with
     | Ok d => Ok d
     | Raise e => Raise e
     end, st).
Proof.
  intros Hrun Hjson.
  unfold run_oci_command, try_except, bind, call_subprocess, call_json_loads.
  rewrite Hrun. cbn [ret]. cbn [Z.eqb negb]. rewrite Hjson. cbn [ret lift].
  destruct v as [| | | | |kvs]; try reflexivity.
Qed.

(** The degrade-to-empty policy of [run_oci_command], for any command. *)
Lemma failed_fetch_is_empty (env : Env) (cmd : list string)
      (rc : Z) (out err : string) :
  subprocess_run env cmd = Completed rc out err ->
  rc <> 0%Z \/ (exists msg, json_loads env out = DecodeError msg) ->
  fetches env cmd (empty_for cmd).
Proof.
  intros Hrun Hfail.
  destruct (Z.eq_dec rc 0) as [->|Hrc].
  - destruct Hfail as [Hrc|[msg Hmsg]]; [contradiction|].
    exists ["Unexpected error: " ++ msg]. intros st.
    now apply run_oci_command_not_json with (out := out) (err := err).
  - exists ["Error executing OCI CLI: " ++ err]. intros st.
    now apply run_oci_command_exit_nonzero with (rc := rc) (out := out).
Qed.

(** The three list commands carry the word "list" whatever the arguments. *)
Lemma list_commands_empty (profile compartment_id : string) :
  empty_for (pdb_list_command profile compartment_id) = PList []
  /\ empty_for (database_list_command profile compartment_id) = PList []
  /\ empty_for (db_home_list_command profile compartment_id) = PList [].
Proof.
  repeat split; reflexivity.
Qed.

(** The get command carries it only when an argument is that word. *)
Lemma get_command_empty (profile compartment_id : string) :
  compartment_id <> "list" ->
  profile <> "list" ->
  empty_for (compartment_get_command profile compartment_id) = PDict [].
Proof.
  intros Hc Hp. unfold empty_for, str_in, compartment_get_command.
  cbn [existsb].
  replace ("list" =? compartment_id) with false
    by (symmetry; apply String.eqb_neq; congruence).
  replace ("list" =? profile) with false
    by (symmetry; apply String.eqb_neq; congruence).
  reflexivity.
Qed.

(** C2, at the failing input.  The compartment lookup of a run with
    [--profile list], when the client exits with status 1: the get operation
    returns the empty list, where an empty mapping is due. *)
Theorem get_with_profile_named_list_returns_a_list :
  run_oci_command failing_env
                  (compartment_get_command "list" "ocid1.compartment.oc1..a")
                  initial_state
  = (Ok (PList []),
     log ["Error executing OCI CLI: ERROR: profile not found"] initial_state).
Proof. reflexivity. Qed.

(* ===================================================================== *)
(** ** Writing the file *)

Lemma append_nil_r (s : string) : s ++ "" = s.
Proof.
  induction s as [|c s IH]; simpl; [reflexivity | now rewrite IH].
Qed.

Lemma append_assoc (a b c : string) : (a ++ b) ++ c = a ++ (b ++ c).
Proof.
  induction a as [|x a IH]; simpl; [reflexivity | now rewrite IH].
Qed.

Lemma remove_file_absent (fs : list (string * string)) (name : string) :
  remove_file (remove_file fs name) name = remove_file fs name.
Proof.
  induction fs as [|[n c] fs IH]; simpl; [reflexivity|].
  destruct (n =? name) eqn:Hn; [assumption|].
  simpl. rewrite Hn. now rewrite IH.
Qed.

Lemma dict_to_list_accepted (env : Env) (row : pyval) :
  row_accepted row = true ->
  dict_to_list env row = Ok (row_values row).
Proof.
  destruct row as [| | | | |kvs]; try discriminate. simpl. intros Hkeys.
  replace (filter (fun k => negb (is_fieldname k)) (map fst kvs))
    with (@nil pyval); [reflexivity|].
  symmetry. induction (map fst kvs) as [|k ks IH]; [reflexivity|].
  simpl in Hkeys |- *. apply andb_true_iff in Hkeys as [Hk Hks].
  rewrite Hk. simpl. now apply IH.
Qed.

(** With a file that takes every write, [writerows] appends one line per
    row to it. *)
Lemma writerows_appends (env : Env) (name : string) (rows : list pyval) :
  file_io env name = IoOk ->
  Forall (fun row => row_accepted row = true) rows ->
  forall (k : nat) (pr : list string) (cur : string)
         (others : list (string * string)),
    remove_file others name = others ->
    writerows env name k rows
              {| printed := pr; files := (name, cur) :: others |}
    = (Ok tt,
       {| printed := pr;
          files := (name, cur ++ csv_text env (map row_values rows))
                     :: others |}).
Proof.
  intros Hio Hrows. induction Hrows as [|row rows Hrow _ IH];
    intros k pr cur others Hothers.
  - unfold csv_text. simpl. now rewrite append_nil_r.
  - cbn [writerows]. unfold bind at 1. unfold lift.
    rewrite (dict_to_list_accepted env row Hrow).
    unfold bind at 1. unfold file_write. rewrite Hio.
    cbn [files file_content]. rewrite String.eqb_refl.
    unfold put_file. cbn [printed files remove_file].
    rewrite String.eqb_refl, Hothers.
    rewrite IH by assumption.
    unfold csv_text. cbn [map concat_strings].
    now rewrite append_assoc.
Qed.

(** [save_to_csv] on a file that takes every write: the file holds the
    header line and one line per row, and the success line is printed. *)
Lemma save_to_csv_writes (env : Env) (rows : list pyval) (name : string)
      (st : state) :
  file_io env name = IoOk ->
  Forall (fun row => row_accepted row = true) rows ->
  save_to_csv env (PList rows) name st
  = (Ok tt,
     {| printed := printed st ++ ["CSV generated: " ++ name];
        files := (name, csv_text env (header :: map row_values rows))
                   :: remove_file (files st) name |}).
Proof.
  intros Hio Hrows.
  unfold save_to_csv, try_except.
  unfold bind at 1. unfold open_w. rewrite Hio. unfold put_file at 1.
  unfold bind at 1. unfold writeheader, file_write. rewrite Hio.
  cbn [files file_content]. rewrite String.eqb_refl.
  unfold put_file. cbn [printed files remove_file].
  rewrite String.eqb_refl, remove_file_absent.
  unfold bind at 1. cbn [lift py_iter].
  unfold bind at 1.
  rewrite (writerows_appends env name rows Hio Hrows)
    by apply remove_file_absent.
  reflexivity.
Qed.

(* ===================================================================== *)
(** ** From the answers of the client to the mappings *)

Lemma flat_record_get (kvs : list (pyval * pyval)) (k default : pyval) :
  flat_record (PDict kvs) = true ->
  hashable default = true ->
  hashable (get_or kvs k default) = true.
Proof.
  intros Hflat Hd. unfold get_or.
  destruct (dict_lookup kvs k) as [v|] eqn:Hk; [|assumption].
  exact (dict_lookup_forallb hashable kvs k v Hflat Hk).
Qed.

Lemma flat_records_keyed (l : list pyval) :
  forallb flat_record l = true -> forallb keyed_record l = true.
Proof.
  induction l as [|r l IH]; simpl; intros H; [reflexivity|].
  apply andb_true_iff in H as [Hr Hl]. rewrite (IH Hl), andb_true_r.
  destruct r as [| | | | |kvs]; try discriminate Hr.
  now apply flat_record_get.
Qed.

Lemma get_or_hashable (kvs : list (pyval * pyval)) (k default : pyval) :
  hashable (get_or kvs k PNone) = true ->
  hashable default = true ->
  hashable (get_or kvs k default) = true.
Proof.
  unfold get_or. now destruct (dict_lookup kvs k).
Qed.

Lemma key_eqb_sym (a b : pyval) : key_eqb a b = key_eqb b a.
Proof.
  destruct a, b; unfold key_eqb, key_num;
    try reflexivity; try apply Z.eqb_sym; apply String.eqb_sym.
Qed.

Lemma key_eqb_true_l (a b c : pyval) :
  key_eqb a b = true -> key_eqb a c = key_eqb b c.
Proof.
  destruct a, b; unfold key_eqb, key_num;
    try discriminate; try reflexivity; intros H;
    try (apply Z.eqb_eq in H); try (apply String.eqb_eq in H);
    destruct c; try reflexivity; try (now rewrite H); now subst.
Qed.

Lemma key_eqb_hashable (a b : pyval) :
  key_eqb a b = true -> hashable b = true.
Proof.
  destruct a, b; try reflexivity; discriminate.
Qed.

(** Reading a dict after a store: the stored value under every key equal
    to the stored key, what was there under the others. *)
Lemma dict_lookup_store (d : list (pyval * pyval)) (k v k' : pyval) :
  dict_lookup (dict_store d k v) k'
  = if key_eqb k k' then Some v else dict_lookup d k'.
Proof.
  induction d as [|[k0 v0] d IH]; simpl.
  - reflexivity.
  - destruct (key_eqb k0 k) eqn:Hk0; simpl.
    + rewrite (key_eqb_true_l k0 k k' Hk0).
      now destruct (key_eqb k k').
    + rewrite IH. destruct (key_eqb k0 k') eqn:Hk0'; [|reflexivity].
      destruct (key_eqb k k') eqn:Hk; [|reflexivity].
      rewrite (key_eqb_true_l k0 k' k Hk0'), key_eqb_sym, Hk in Hk0.
      discriminate Hk0.
Qed.

Lemma last_with_key_matches (key_of : pyval -> pyval) (k x : pyval)
      (l : list pyval) :
  last_with_key key_of k l = Some x -> key_eqb (key_of x) k = true.
Proof.
  induction l as [|y l IH]; simpl; [discriminate|].
  destruct (last_with_key key_of k l); [exact IH|].
  destruct (key_eqb (key_of y) k) eqn:Hy; [|discriminate].
  intros H. now inversion H; subst.
Qed.

Lemma cdb_entry_store (acc : list (pyval * pyval)) (db : pyval) :
  keyed_record db = true ->
  cdb_entry acc db
  = Ok (dict_store acc (database_key db) (database_entry db)).
Proof.
  destruct db as [| | | | |kvs]; try discriminate. intros Hkey.
  unfold cdb_entry. rewrite !py_get_dict by reflexivity. cbn [rbind].
  unfold py_setitem.
  now rewrite (get_or_hashable kvs (PStr "id") (PStr "Unknown ID") Hkey
                               eq_refl).
Qed.

Lemma home_entry_store (acc : list (pyval * pyval)) (home : pyval) :
  keyed_record home = true ->
  home_entry acc home = Ok (dict_store acc (home_key home) (home_name home)).
Proof.
  destruct home as [| | | | |kvs]; try discriminate. intros Hkey.
  unfold home_entry. rewrite !py_get_dict by reflexivity. cbn [rbind].
  unfold py_setitem.
  now rewrite (get_or_hashable kvs (PStr "id") (PStr "Unknown DB Home") Hkey
                               eq_refl).
Qed.

(** A comprehension whose steps are stores: under every key, the value of
    the last item with that key, and what the dict held before when no
    item has it. *)
Lemma comprehension_lookup
      (entry : list (pyval * pyval) -> pyval -> result (list (pyval * pyval)))
      (key_of value_of : pyval -> pyval) (items : list pyval) :
  (forall acc x,
      keyed_record x = true ->
      entry acc x = Ok (dict_store acc (key_of x) (value_of x))) ->
  forallb keyed_record items = true ->
  forall acc,
  exists es,
    dict_comprehension entry acc items = Ok es
    /\ forall k,
      dict_lookup es k
      = match last_with_key key_of k items with
        | Some x => Some (value_of x)
        | None => dict_lookup acc k
        end.
Proof.
  intros Hentry. induction items as [|x items IH]; intros Hitems acc.
  - exists acc. split; reflexivity.
  - simpl in Hitems. apply andb_true_iff in Hitems as [Hx Hitems].
    destruct (IH Hitems (dict_store acc (key_of x) (value_of x)))
      as (es & Hes & Hlookup).
    exists es. split.
    + cbn [dict_comprehension]. rewrite (Hentry acc x Hx). exact Hes.
    + intros k. rewrite Hlookup. cbn [last_with_key].
      destruct (last_with_key key_of k items); [reflexivity|].
      rewrite dict_lookup_store. now destruct (key_eqb (key_of x) k).
Qed.

(** The mapping built from what the database list is answered with: any
    value whose items are objects with a scalar id. *)
Lemma cdb_mapping_lookup (answer : pyval) (databases : list pyval) :
  py_iter answer = Ok databases ->
  forallb keyed_record databases = true ->
  exists es,
    build_dict cdb_entry answer = Ok (PDict es)
    /\ forall k,
      dict_lookup es k
      = option_map database_entry (last_with_key database_key k databases).
Proof.
  intros Hitems Hdbs.
  destruct (comprehension_lookup cdb_entry database_key database_entry
              databases cdb_entry_store Hdbs []) as (es & Hes & Hlookup).
  exists es. split.
  - unfold build_dict. rewrite Hitems. cbn [rbind]. now rewrite Hes.
  - intros k. rewrite Hlookup.
    now destruct (last_with_key database_key k databases).
Qed.

Lemma home_mapping_lookup (answer : pyval) (homes : list pyval) :
  py_iter answer = Ok homes ->
  forallb keyed_record homes = true ->
  exists hs,
    build_dict home_entry answer = Ok (PDict hs)
    /\ forall k,
      dict_lookup hs k
      = option_map home_name (last_with_key home_key k homes).
Proof.
  intros Hitems Hhomes.
  destruct (comprehension_lookup home_entry home_key home_name
              homes home_entry_store Hhomes []) as (hs & Hhs & Hlookup).
  exists hs. split.
  - unfold build_dict. rewrite Hitems. cbn [rbind]. now rewrite Hhs.
  - intros k. rewrite Hlookup.
    now destruct (last_with_key home_key k homes).
Qed.

Lemma get_pdb_list_fetches (env : Env) (profile compartment_id : string)
      (pdbs : pyval) :
  fetches env (pdb_list_command profile compartment_id) pdbs ->
  exists lines, forall st,
    get_pdb_list env profile compartment_id st = (Ok pdbs, log lines st).
Proof.
  intros [lines Hrun]. exists ("Fetching PDBs..." :: lines). intros st.
  unfold get_pdb_list, bind. rewrite print_log, Hrun, log_log. reflexivity.
Qed.

Lemma get_cdb_mapping_answers (env : Env) (profile compartment_id : string)
      (answer : pyval) (databases : list pyval) :
  fetches env (database_list_command profile compartment_id) answer ->
  py_iter answer = Ok databases ->
  forallb keyed_record databases = true ->
  exists es lines,
    (forall st,
        get_cdb_mapping env profile compartment_id st
        = (Ok (PDict es), log lines st))
    /\ forall k,
      dict_lookup es k
      = option_map database_entry (last_with_key database_key k databases).
Proof.
  intros [lines Hrun] Hitems Hdbs.
  destruct (cdb_mapping_lookup answer databases Hitems Hdbs)
    as (es & Hes & Hlookup).
  exists es, ("Fetching CDBs..." :: lines). split; [|assumption].
  intros st. unfold get_cdb_mapping, bind.
  rewrite print_log, Hrun, log_log. unfold lift. now rewrite Hes.
Qed.

Lemma get_db_home_mapping_answers (env : Env)
      (profile compartment_id : string)
      (answer : pyval) (homes : list pyval) :
  fetches env (db_home_list_command profile compartment_id) answer ->
  py_iter answer = Ok homes ->
  forallb keyed_record homes = true ->
  exists hs lines,
    (forall st,
        get_db_home_mapping env profile compartment_id st
        = (Ok (PDict hs), log lines st))
    /\ forall k,
      dict_lookup hs k
      = option_map home_name (last_with_key home_key k homes).
Proof.
  intros [lines Hrun] Hitems Hhomes.
  destruct (home_mapping_lookup answer homes Hitems Hhomes)
    as (hs & Hhs & Hlookup).
  exists hs, ("Fetching DB Homes..." :: lines). split; [|assumption].
  intros st. unfold get_db_home_mapping, bind.
  rewrite print_log, Hrun, log_log. unfold lift. now rewrite Hhs.
Qed.

Lemma get_compartment_name_fetches (env : Env)
      (profile compartment_id : string) (compartment : pyval) :
  fetches env (compartment_get_command profile compartment_id) compartment ->
  record_or_nothing compartment = true ->
  exists name lines, forall st,
    get_compartment_name env profile compartment_id st
    = (Ok name, log lines st).
Proof.
  intros [lines Hrun] Hshape.
  destruct (truthy compartment) eqn:Htruthy.
  - destruct compartment as [| | | | |kvs];
      try (unfold record_or_nothing in Hshape; rewrite Htruthy in Hshape;
           discriminate Hshape).
    exists (get_or kvs (PStr "name") (PStr "Unknown Compartment")),
      ("Fetching Compartment Name..." :: lines). intros st.
    unfold get_compartment_name, bind. rewrite print_log, Hrun, log_log.
    rewrite Htruthy. reflexivity.
  - exists (PStr "Unknown Compartment"),
      ("Fetching Compartment Name..." :: lines). intros st.
    unfold get_compartment_name, bind. rewrite print_log, Hrun, log_log.
    rewrite Htruthy. reflexivity.
Qed.

(** *** The join on the mappings of a run *)

(** The row expression, under the two conditions on which it does not
    raise when every entry of the CDB mapping is a dict: the link of the
    PDB is a scalar, and so is the home id of the entry found under it. *)
Lemma mapping_row_joined_when (es hs kvs : list (pyval * pyval))
      (compartment_id compartment_name : pyval) :
  (forall k, is_dict (get_or es k (PDict [])) = true) ->
  hashable (get_or kvs container_database_id PNone) = true ->
  hashable (get_or match get_or es (get_or kvs container_database_id PNone)
                                (PDict []) with
                   | PDict e => e
                   | _ => []
                   end (PStr "DB_Home_ID") PNone) = true ->
  mapping_row (PDict es) (PDict hs) compartment_id compartment_name (PDict kvs)
  = Ok (joined_row es hs kvs compartment_id compartment_name).
Proof.
  intros Hentries Hlink Hhome.
  pose proof (get_or_hashable kvs container_database_id (PStr "Unknown CDB")
                              Hlink eq_refl) as Hk1.
  pose proof (Hentries (get_or kvs container_database_id (PStr "Unknown CDB")))
    as He1.
  pose proof (Hentries (get_or kvs container_database_id PNone)) as He2.
  unfold mapping_row, joined_row.
  fold container_database_id. cbn [load_get].
  rewrite (py_get_dict kvs (PStr "pdb-name")) by reflexivity. cbn [rbind].
  rewrite !(py_get_dict kvs container_database_id) by reflexivity.
  cbn [rbind].
  rewrite (py_get_dict es _ (PDict []) Hk1). cbn [rbind].
  destruct (get_or es (get_or kvs container_database_id (PStr "Unknown CDB"))
                   (PDict [])) as [| | | | |e1]; try discriminate He1.
  rewrite (py_get_dict e1 (PStr "CDB_Name")) by reflexivity. cbn [rbind].
  rewrite (py_get_dict es _ (PDict []) Hlink). cbn [rbind].
  destruct (get_or es (get_or kvs container_database_id PNone) (PDict []))
    as [| | | | |e2]; try discriminate He2.
  rewrite (py_get_dict e2 (PStr "DB_Home_ID")) by reflexivity. cbn [rbind].
  rewrite (py_get_dict hs _ _ Hhome). cbn [rbind].
  reflexivity.
Qed.

(** The same for a CDB mapping built from a list of database records. *)
Lemma joinable_row (databases : list pyval) (es hs kvs : list (pyval * pyval))
      (compartment_id compartment_name : pyval) :
  (forall k,
      dict_lookup es k
      = option_map database_entry (last_with_key database_key k databases)) ->
  pdb_joinable databases (PDict kvs) = true ->
  mapping_row (PDict es) (PDict hs) compartment_id compartment_name (PDict kvs)
  = Ok (joined_row es hs kvs compartment_id compartment_name).
Proof.
  intros Hlookup Hpdb. cbn [pdb_joinable] in Hpdb.
  apply andb_true_iff in Hpdb as [Hlink Hhome].
  apply mapping_row_joined_when; [|assumption|].
  - intros k. unfold get_or. rewrite Hlookup.
    now destruct (last_with_key database_key k databases).
  - unfold get_or at 2. rewrite Hlookup.
    destruct (last_with_key database_key
                            (get_or kvs container_database_id PNone) databases)
      as [db|]; [|reflexivity].
    exact Hhome.
Qed.

Lemma extract_joinable (databases l : list pyval)
      (es hs : list (pyval * pyval))
      (compartment_id compartment_name : pyval) :
  (forall k,
      dict_lookup es k
      = option_map database_entry (last_with_key database_key k databases)) ->
  Forall (fun pdb => pdb_joinable databases pdb = true) l ->
  exists rows,
    extract_pdb_cdb_mapping (PList l) (PDict es) (PDict hs) compartment_id
                            compartment_name = Ok (PList rows)
    /\ Forall2 (fun pdb row =>
                  mapping_row (PDict es) (PDict hs) compartment_id
                              compartment_name pdb = Ok row) l rows.
Proof.
  intros Hlookup Hl.
  destruct (rmapM_total (fun pdb => pdb_joinable databases pdb = true)
              (mapping_row (PDict es) (PDict hs) compartment_id compartment_name)
              l) as [rows Hrows]; [|assumption|].
  - intros pdb Hpdb. destruct pdb as [| | | | |kvs]; try discriminate Hpdb.
    eexists. now apply (joinable_row databases).
  - exists rows. split.
    + unfold extract_pdb_cdb_mapping. cbn [py_iter rbind].
      rewrite Hrows. reflexivity.
    + now apply rmapM_Forall2.
Qed.

(* ===================================================================== *)
(** ** Reading back what was written *)

(** *** The line-by-line reader is one pass over the text *)

Lemma process_chars_app (r : reader) (a b : string) :
  process_chars r (a ++ b)
  = (r' <- process_chars r a ;; process_chars r' b)%result.
Proof.
  revert r. induction a as [|c a IH]; intros r; simpl; [reflexivity|].
  destruct (process_char r c) as [r1|e]; simpl; [apply IH | reflexivity].
Qed.

Lemma end_of_line_ext (r : reader)
      (f g : reader -> result (list (list string))) :
  (forall r', f r' = g r') -> end_of_line r f = end_of_line r g.
Proof.
  intros Hfg. unfold end_of_line.
  destruct (at_record_start (process_eol r)); now rewrite Hfg.
Qed.

Lemma file_lines_from_nonempty (cur text : string) :
  cur <> "" ->
  exists l ls, file_lines_from cur text = (cur ++ l) :: ls.
Proof.
  revert cur. induction text as [|c rest IH]; intros cur Hcur.
  - exists "", []. simpl. rewrite append_nil_r.
    destruct cur; [contradiction|reflexivity].
  - assert (Hline : cur ++ String c "" <> "") by (destruct cur; discriminate).
    assert (Hend : exists l ls,
               (cur ++ String c "") :: file_lines_from "" rest
               = (cur ++ l) :: ls)
      by (now exists (String c ""), (file_lines_from "" rest)).
    assert (Hgo : exists l ls,
               file_lines_from (cur ++ String c "") rest = (cur ++ l) :: ls).
    { destruct (IH _ Hline) as (l & ls & Hl).
      exists (String c l), ls. rewrite Hl. now rewrite append_assoc. }
    simpl. destruct (c =? LF)%char; [exact Hend|].
    destruct (c =? CR)%char; [|exact Hgo].
    destruct rest as [|c' rest']; [exact Hend|].
    destruct (c' =? LF)%char; [exact Hgo|exact Hend].
Qed.

Lemma read_records_raise (r0 : reader) (cur text : string) (e : exn) :
  cur <> "" ->
  process_chars r0 cur = Raise e ->
  read_records r0 (file_lines_from cur text) = Raise e.
Proof.
  intros Hcur Hraise.
  destruct (file_lines_from_nonempty cur text Hcur) as (l & ls & ->).
  simpl. rewrite process_chars_app, Hraise. reflexivity.
Qed.

Lemma read_records_scan (text : string) :
  forall (cur : string) (r0 r : reader),
    process_chars r0 cur = Ok r ->
    read_records r0 (file_lines_from cur text)
    = scan r (negb (cur =? "")) text.
Proof.
  induction text as [|c rest IH]; intros cur r0 r Hcur.
  - simpl. destruct cur as [|c cur].
    + simpl in Hcur. inversion Hcur; subst. reflexivity.
    + cbn [read_records]. rewrite Hcur. reflexivity.
  - assert (Hline : cur ++ String c "" <> "") by (destruct cur; discriminate).
    assert (Hflag : negb (cur ++ String c "" =? "") = true)
      by (destruct cur; reflexivity).
    assert (Hchars : process_chars r0 (cur ++ String c "")
                     = match process_char r c with
                       | Ok r' => Ok r'
                       | Raise e => Raise e
                       end).
    { rewrite process_chars_app, Hcur. simpl.
      now destruct (process_char r c). }
    assert (Hend : ends_line c rest = true ->
                   read_records r0
                     ((cur ++ String c "") :: file_lines_from "" rest)
                   = scan r (negb (cur =? "")) (String c rest)).
    { intros Hends. cbn [read_records scan]. rewrite Hchars, Hends.
      destruct (process_char r c) as [r'|e]; [|reflexivity].
      cbn [rbind]. apply end_of_line_ext. intros r''.
      now apply IH. }
    assert (Hgo : ends_line c rest = false ->
                  read_records r0 (file_lines_from (cur ++ String c "") rest)
                  = scan r (negb (cur =? "")) (String c rest)).
    { intros Hends. cbn [scan]. rewrite Hends.
      destruct (process_char r c) as [r'|e] eqn:Hc.
      - rewrite (IH _ r0 r' Hchars). now rewrite Hflag.
      - now apply read_records_raise. }
    cbn [file_lines_from]. unfold ends_line in Hend, Hgo.
    destruct (c =? LF)%char; [now apply Hend|].
    destruct (c =? CR)%char; [|now apply Hgo].
    destruct rest as [|c' rest']; [now apply Hend|].
    cbn [starts_with_LF] in Hend, Hgo.
    destruct (c' =? LF)%char; [now apply Hgo|now apply Hend].
Qed.

Lemma csv_reader_scan (text : string) :
  csv_reader text = scan parse_reset false text.
Proof.
  unfold csv_reader, file_lines.
  now rewrite (read_records_scan text "" parse_reset parse_reset eq_refl).
Qed.

(** *** What the machine does on what the writer wrote *)

Lemma special_false (c : ascii) :
  special c = false ->
  (c =? comma)%char = false /\ (c =? dquote)%char = false
  /\ (c =? CR)%char = false /\ (c =? LF)%char = false.
Proof.
  unfold special. intros H.
  apply orb_false_elim in H as [H HLF].
  apply orb_false_elim in H as [H HCR].
  apply orb_false_elim in H as [Hcomma Hdquote].
  auto.
Qed.

Lemma end_of_line_in_quotes (field : string) (done : list string)
      (next : reader -> result (list (list string))) :
  end_of_line (in_state IN_QUOTED_FIELD field done) next
  = next (in_state IN_QUOTED_FIELD field done).
Proof. reflexivity. Qed.

Lemma scan_cons (r r' : reader) (inline : bool) (c : ascii) (rest : string) :
  process_char r c = Ok r' ->
  scan r inline (String c rest)
  = if ends_line c rest
    then end_of_line r' (fun r'' => scan r'' false rest)
    else scan r' true rest.
Proof.
  intros H. cbn [scan]. now rewrite H.
Qed.

Lemma ends_line_ordinary (c : ascii) (rest : string) :
  is_newline c = false -> ends_line c rest = false.
Proof.
  unfold is_newline, ends_line. intros H.
  apply orb_false_elim in H as [-> ->]. reflexivity.
Qed.

(** A character that is no line end moves the machine and nothing else. *)
Lemma scan_ordinary (r r' : reader) (inline : bool) (c : ascii)
      (rest : string) :
  is_newline c = false ->
  process_char r c = Ok r' ->
  scan r inline (String c rest) = scan r' true rest.
Proof.
  intros Hc H. rewrite (scan_cons r r') by assumption.
  now rewrite ends_line_ordinary.
Qed.

(** Inside quotes: the doubled text of a field and the closing quote leave
    the field collected, whatever line ends it contains. *)
Lemma scan_quoted (f : string) :
  forall (acc : string) (done : list string) (inline : bool) (rest : string),
    scan (in_state IN_QUOTED_FIELD acc done) inline
         (double_quotes f ++ String dquote rest)
    = scan (in_state QUOTE_IN_QUOTED_FIELD (acc ++ f) done) true rest.
Proof.
  induction f as [|c f IH]; intros acc done inline rest.
  - cbn [double_quotes append]. rewrite append_nil_r.
    now apply scan_ordinary.
  - cbn [double_quotes]. destruct (c =? dquote)%char eqn:Hc.
    + apply Ascii.eqb_eq in Hc. subst c. cbn [append].
      rewrite (scan_ordinary _ (in_state QUOTE_IN_QUOTED_FIELD acc done))
        by reflexivity.
      rewrite (scan_ordinary
                 _ (in_state IN_QUOTED_FIELD (acc ++ String dquote "") done))
        by reflexivity.
      rewrite IH. now rewrite append_assoc.
    + cbn [append].
      rewrite (scan_cons
                 _ (in_state IN_QUOTED_FIELD (acc ++ String c "") done))
        by (unfold process_char; cbn [rd_state in_state]; now rewrite Hc).
      destruct (ends_line c (double_quotes f ++ String dquote rest)).
      * rewrite end_of_line_in_quotes, IH. now rewrite append_assoc.
      * rewrite IH. now rewrite append_assoc.
Qed.

(** Outside quotes: the characters of a field that needs none are
    collected one by one. *)
Lemma scan_unquoted (f : string) :
  needs_quotes f = false ->
  forall (acc : string) (done : list string) (rest : string),
    scan (in_state IN_FIELD acc done) true (f ++ rest)
    = scan (in_state IN_FIELD (acc ++ f) done) true rest.
Proof.
  induction f as [|c f IH]; intros Hf acc done rest.
  - simpl. now rewrite append_nil_r.
  - simpl in Hf. apply orb_false_elim in Hf as [Hc Hf].
    destruct (special_false c Hc) as (Hcomma & Hdquote & HCR & HLF).
    cbn [append].
    rewrite (scan_ordinary _ (in_state IN_FIELD (acc ++ String c "") done)).
    2: { unfold is_newline. now rewrite HLF, HCR. }
    2: { unfold process_char, is_newline. cbn [rd_state in_state].
         now rewrite HLF, HCR, Hcomma. }
    rewrite IH by assumption. now rewrite append_assoc.
Qed.

Lemma before_field_quote (first : bool) (done : list string) :
  process_char (before_field first done) dquote
  = Ok (in_state IN_QUOTED_FIELD "" done).
Proof. destruct first; reflexivity. Qed.

Lemma before_field_comma (first : bool) (done : list string) :
  process_char (before_field first done) comma
  = Ok (before_field false (done ++ [""])).
Proof. destruct first; reflexivity. Qed.

Lemma before_field_ordinary (first : bool) (done : list string) (c : ascii) :
  special c = false ->
  process_char (before_field first done) c
  = Ok (in_state IN_FIELD (String c "") done).
Proof.
  intros Hc. destruct (special_false c Hc) as (Hcomma & Hdquote & HCR & HLF).
  destruct first; unfold process_char, start_field, is_newline;
    cbn [rd_state before_field]; now rewrite HLF, HCR, Hdquote, Hcomma.
Qed.

Lemma special_not_newline (c : ascii) :
  special c = false -> is_newline c = false.
Proof.
  intros Hc. destruct (special_false c Hc) as (_ & _ & HCR & HLF).
  unfold is_newline. now rewrite HLF, HCR.
Qed.

Lemma scan_open_quote (first : bool) (done : list string) (inline : bool)
      (rest : string) :
  scan (before_field first done) inline (String dquote rest)
  = scan (in_state IN_QUOTED_FIELD "" done) true rest.
Proof.
  apply scan_ordinary; [reflexivity | apply before_field_quote].
Qed.

Lemma scan_first_char (first : bool) (done : list string) (inline : bool)
      (c : ascii) (rest : string) :
  special c = false ->
  scan (before_field first done) inline (String c rest)
  = scan (in_state IN_FIELD (String c "") done) true rest.
Proof.
  intros Hc. apply scan_ordinary.
  - now apply special_not_newline.
  - now apply before_field_ordinary.
Qed.

Lemma quoted_text (f rest : string) :
  String dquote (double_quotes f ++ String dquote "") ++ rest
  = String dquote (double_quotes f ++ String dquote rest).
Proof.
  cbn [append]. now rewrite append_assoc.
Qed.

(** A field and the delimiter after it: the field joins the record. *)
Lemma scan_field_comma (f : string) (first : bool) (done : list string)
      (inline : bool) (rest : string) :
  scan (before_field first done) inline (quote_field f ++ String comma rest)
  = scan (before_field false (done ++ [f])) true rest.
Proof.
  unfold quote_field. destruct (needs_quotes f) eqn:Hf.
  - rewrite quoted_text.
    rewrite scan_open_quote, scan_quoted. now apply scan_ordinary.
  - destruct f as [|c f].
    + apply scan_ordinary; [reflexivity | apply before_field_comma].
    + simpl in Hf. apply orb_false_elim in Hf as [Hc Hf]. cbn [append].
      rewrite (scan_first_char first done inline c _ Hc).
      rewrite (scan_unquoted f Hf). now apply scan_ordinary.
Qed.

(** The line terminator after a collected field ends the record. *)
Lemma scan_terminator (s : parser_state) (field : string)
      (done : list string) (inline : bool) (rest : string) :
  s = START_FIELD \/ s = IN_FIELD \/ s = QUOTE_IN_QUOTED_FIELD ->
  scan (in_state s field done) inline (lineterminator ++ rest)
  = (rows <- scan parse_reset false rest ;;
     Ok ((done ++ [field])%list :: rows))%result.
Proof.
  intros [->|[->| ->]]; reflexivity.
Qed.

(** The last field of a record and the line terminator.  The one record
    this does not read is the first field written as no character at all,
    which the writer never writes. *)
Lemma scan_field_end (f : string) (first : bool) (done : list string)
      (inline : bool) (rest : string) :
  (first = true -> quote_field f <> "") ->
  scan (before_field first done) inline
       (quote_field f ++ lineterminator ++ rest)
  = (rows <- scan parse_reset false rest ;;
     Ok ((done ++ [f])%list :: rows))%result.
Proof.
  unfold quote_field. destruct (needs_quotes f) eqn:Hf; intros Hfirst.
  - rewrite quoted_text.
    rewrite scan_open_quote, scan_quoted. apply scan_terminator. auto.
  - destruct f as [|c f].
    + destruct first; [now contradiction Hfirst|].
      apply (scan_terminator START_FIELD). auto.
    + simpl in Hf. apply orb_false_elim in Hf as [Hc Hf]. cbn [append].
      rewrite (scan_first_char first done inline c _ Hc).
      rewrite (scan_unquoted f Hf). apply scan_terminator. auto.
Qed.

Lemma scan_fields (fs : list string) :
  forall (first : bool) (done : list string) (inline : bool) (rest : string),
    fs <> [] ->
    (first = true -> join_fields (map quote_field fs) <> "") ->
    scan (before_field first done) inline
         (join_fields (map quote_field fs) ++ lineterminator ++ rest)
    = (rows <- scan parse_reset false rest ;;
       Ok ((done ++ fs)%list :: rows))%result.
Proof.
  induction fs as [|f fs IH]; intros first done inline rest Hfs Hfirst.
  - contradiction.
  - destruct fs as [|g fs].
    + now apply scan_field_end.
    + change (join_fields (map quote_field (f :: g :: fs)))
        with (quote_field f
              ++ String comma (join_fields (map quote_field (g :: fs)))).
      rewrite append_assoc. cbn [append].
      rewrite scan_field_comma.
      rewrite IH; [|discriminate|discriminate].
      now rewrite <- app_assoc.
Qed.

Lemma quote_field_empty (f : string) : quote_field f = "" -> f = "".
Proof.
  unfold quote_field. destruct (needs_quotes f); [discriminate|auto].
Qed.

Lemma append_cons_nonempty (a b : string) (c : ascii) :
  a ++ String c b <> "".
Proof.
  destruct a; discriminate.
Qed.

(** One written record, read back. *)
Lemma scan_record (fs : list string) (inline : bool) (rest : string) :
  scan parse_reset inline (render fs ++ rest)
  = (rows <- scan parse_reset false rest ;; Ok (fs :: rows))%result.
Proof.
  unfold render. destruct fs as [|f fs]; [reflexivity|].
  destruct (join_fields (map quote_field (f :: fs))) as [|c record] eqn:Hjoin.
  - destruct fs as [|g fs].
    + simpl in Hjoin. apply quote_field_empty in Hjoin. subst f. reflexivity.
    + change (join_fields (map quote_field (f :: g :: fs)))
        with (quote_field f
              ++ String comma (join_fields (map quote_field (g :: fs))))
        in Hjoin.
      now apply append_cons_nonempty in Hjoin.
  - rewrite <- Hjoin, append_assoc.
    change parse_reset with (before_field true []) at 1.
    rewrite scan_fields; [reflexivity|discriminate|].
    intros _. rewrite Hjoin. discriminate.
Qed.

(** The records written are the records read. *)
Lemma scan_records (records : list (list string)) :
  scan parse_reset false (concat_strings (map render records)) = Ok records.
Proof.
  induction records as [|fs records IH]; [reflexivity|].
  cbn [map concat_strings]. rewrite scan_record, IH. reflexivity.
Qed.

Lemma writerow_render (env : Env) (fields : list pyval) :
  writerow env fields = render (map (field_text env) fields).
Proof.
  unfold writerow, render.
  rewrite <- (map_map (field_text env) quote_field).
  destruct fields as [|v fields]; [reflexivity|]. cbn [map].
  now destruct (join_fields
                  (quote_field (field_text env v)
                     :: map quote_field (map (field_text env) fields))).
Qed.

(** Reading a written file back gives the text of every field of every
    record. *)
Lemma csv_reader_csv_text (env : Env) (records : list (list pyval)) :
  csv_reader (csv_text env records)
  = Ok (map (map (field_text env)) records).
Proof.
  rewrite csv_reader_scan. unfold csv_text.
  replace (map (writerow env) records)
    with (map render (map (map (field_text env)) records)).
  - apply scan_records.
  - rewrite map_map. apply map_ext. intros fields.
    symmetry. apply writerow_render.
Qed.

(* ===================================================================== *)
(** ** The file that [save_to_csv] leaves *)

Lemma row_dict_accepted (a b c d e f : pyval) :
  row_accepted (row_dict a b c d e f) = true.
Proof. reflexivity. Qed.

Lemma row_dict_values (a b c d e f : pyval) :
  row_values (row_dict a b c d e f) = [a; b; c; d; e; f].
Proof. reflexivity. Qed.

Lemma mapping_rows_accepted (rows : list MappingRow) :
  Forall (fun row => row_accepted row = true) (map mapping_row_dict rows).
Proof.
  apply Forall_forall. intros row Hrow.
  apply in_map_iff in Hrow as (m & <- & _). reflexivity.
Qed.

Lemma mapping_rows_values (rows : list MappingRow) :
  map row_values (map mapping_row_dict rows) = map mapping_row_values rows.
Proof.
  rewrite map_map. apply map_ext. intros m. reflexivity.
Qed.

Lemma text_of_str (env : Env) (v : pyval) :
  is_str v = true -> PStr (field_text env v) = v.
Proof.
  destruct v; try discriminate. reflexivity.
Qed.

Lemma texts_of_strs (env : Env) (vs : list pyval) :
  forallb is_str vs = true -> map PStr (map (field_text env) vs) = vs.
Proof.
  induction vs as [|v vs IH]; simpl; intros H; [reflexivity|].
  apply andb_true_iff in H as [Hv Hvs].
  now rewrite (text_of_str env v Hv), IH.
Qed.

Lemma writerow_data_line (env : Env) (m : MappingRow) :
  writerow env (mapping_row_values m) = data_line env m.
Proof.
  rewrite writerow_render. unfold render, data_line, mapping_row_values.
  cbn [map join_fields].
  match goal with
  | |- context [match ?j with EmptyString => _ | String _ _ => _ end] =>
      destruct j eqn:Hj
  end.
  - now apply append_cons_nonempty in Hj.
  - rewrite <- Hj. repeat (rewrite append_assoc; cbn [append]). reflexivity.
Qed.

Lemma file_content_head (name content : string)
      (others : list (string * string)) :
  file_content ((name, content) :: others) name = Some content.
Proof.
  simpl. now rewrite String.eqb_refl.
Qed.

(** C5, as amended.  Round trip.  Rows that hold a string in every
    column, written by [save_to_csv] to a file that takes the writes and
    read back with the reader of the same module, give the header and then
    the rows, field for field. *)
Theorem csv_round_trip (env : Env) (rows : list MappingRow) (name : string)
        (st : state) :
  file_io env name = IoOk ->
  Forall (fun m => text_row m = true) rows ->
  exists st' text records,
    save_to_csv env (PList (map mapping_row_dict rows)) name st = (Ok tt, st')
    /\ file_content (files st') name = Some text
    /\ csv_reader text = Ok records
    /\ map (map PStr) records = header :: map mapping_row_values rows.
Proof.
  intros Hio Htext.
  eexists. eexists. eexists.
  split; [apply save_to_csv_writes; [assumption|apply mapping_rows_accepted]|].
  split; [apply file_content_head|].
  split; [apply csv_reader_csv_text|].
  rewrite mapping_rows_values. cbn [map]. f_equal.
  rewrite map_map.
  induction Htext as [|m rows Hm _ IH]; [reflexivity|].
  cbn [map]. rewrite IH. f_equal. now apply texts_of_strs.
Qed.

(** C5 as it is worded fails.  A row whose PDB_Name is [None], as the
    join makes it for a PDB with a null pdb-name: the file is written, the
    reader returns its records, and the record read back is not the row,
    for it holds the empty string where the row holds [None]. *)
Lemma csv_round_trip_loses_None :
  exists st' text records,
    save_to_csv sample_env (PList (map mapping_row_dict [row_with_null_name]))
                output_file_name initial_state = (Ok tt, st')
    /\ file_content (files st') output_file_name = Some text
    /\ csv_reader text = Ok records
    /\ nth_error records 1
       = Some [""; "C1"; "HOME1"; "Prod"; "cdb1"; sample_compartment]
    /\ map (map PStr) records
       <> header :: map mapping_row_values [row_with_null_name].
Proof.
  pose (text := (header_line ++ ",C1,HOME1,Prod,cdb1," ++ sample_compartment
                 ++ lineterminator)%string).
  exists {| printed := ["CSV generated: pdb_cdb_mapping.csv"];
            files := [(output_file_name, text)] |}.
  exists text.
  exists [fieldnames; [""; "C1"; "HOME1"; "Prod"; "cdb1"; sample_compartment]].
  split; [vm_compute; reflexivity|].
  split; [vm_compute; reflexivity|].
  split; [vm_compute; reflexivity|].
  split; [reflexivity|].
  vm_compute. discriminate.
Qed.

(** C6. The file that [save_to_csv] writes under the fixed name begins
    with the header line of the six column names in their order, and goes
    on with one line per MappingRow: its six fields in that order, commas
    between them.  Read as CSV, it is the record of the six names
    followed by one record of six fields per MappingRow, each field the
    text of the value in that column: a comma, a quote or a line break
    inside a value does not split the record. *)
Theorem csv_layout (env : Env) (rows : list MappingRow) (st : state) :
  file_io env output_file_name = IoOk ->
  exists st' text,
    save_to_csv env (PList (map mapping_row_dict rows)) output_file_name st
    = (Ok tt, st')
    /\ file_content (files st') "pdb_cdb_mapping.csv" = Some text
    /\ text = header_line ++ concat_strings (map (data_line env) rows)
    /\ csv_reader text
       = Ok (["PDB_Name"; "CDB_Name"; "Oracle_Home"; "Compartment_Name";
              "CDB_ID"; "Compartment_ID"]
               :: map (fun m =>
                         [field_text env (PDB_Name m);
                          field_text env (CDB_Name m);
                          field_text env (Oracle_Home m);
                          field_text env (Compartment_Name m);
                          field_text env (CDB_ID m);
                          field_text env (Compartment_ID m)]) rows).
Proof.
  intros Hio. eexists. eexists.
  split; [apply save_to_csv_writes; [assumption|apply mapping_rows_accepted]|].
  change "pdb_cdb_mapping.csv" with output_file_name. cbn [files].
  split; [apply file_content_head|].
  split.
  - rewrite mapping_rows_values. unfold csv_text. cbn [map concat_strings].
    f_equal. rewrite map_map. f_equal.
    apply map_ext. intros m. apply writerow_data_line.
  - rewrite csv_reader_csv_text, mapping_rows_values. cbn [map]. f_equal.
    f_equal. rewrite map_map. apply map_ext. intros m. reflexivity.
Qed.

(* ===================================================================== *)
(** ** The run *)

Lemma log_nil (st : state) : log [] st = st.
Proof.
  destruct st as [pr fs]. unfold log. simpl. now rewrite app_nil_r.
Qed.

(** A client that exits with status 0 and prints a JSON object is answered
    with the ["data"] member of the object. *)
Lemma fetches_json (env : Env) (cmd : list string) (out err : string)
      (kvs : list (pyval * pyval)) :
  subprocess_run env cmd = Completed 0 out err ->
  json_loads env out = Decoded (PDict kvs) ->
  fetches env cmd (get_or kvs (PStr "data") (PList [])).
Proof.
  intros Hrun Hjson. exists []. intros st.
  rewrite (run_oci_command_json env cmd out err (PDict kvs) st Hrun Hjson).
  now rewrite log_nil.
Qed.

(** [main] is [main_until_write], then the write and the last line. *)
Lemma main_split (env : Env) (profile compartment_id : string) (st : state) :
  main env profile compartment_id st
  = (r <- main_until_write env profile compartment_id ;;
     match r with
     | None => ret tt
     | Some mapping =>
         save_to_csv env mapping output_file_name ;;;
         print "Process completed successfully."
     end)%py st.
Proof.
  unfold main, main_until_write, bind. rewrite print_log.
  destruct (get_pdb_list env profile compartment_id
                         (log ["Starting extraction..."] st))
    as [[pdbs|e] st1]; [|reflexivity].
  destruct (truthy pdbs); cbn [negb]; [|reflexivity].
  destruct (get_cdb_mapping env profile compartment_id st1)
    as [[cm|e] st2]; [|reflexivity].
  destruct (get_db_home_mapping env profile compartment_id st2)
    as [[hm|e] st3]; [|reflexivity].
  destruct (get_compartment_name env profile compartment_id st3)
    as [[name|e] st4]; [|reflexivity].
  unfold lift.
  destruct (extract_pdb_cdb_mapping pdbs cm hm (PStr compartment_id) name);
    reflexivity.
Qed.

(** Nothing before the write looks at the output file. *)
Lemma main_until_write_file_io (env : Env) (io : io_behaviour)
      (profile compartment_id : string) (st : state) :
  main_until_write (with_file_io env io) profile compartment_id st
  = main_until_write env profile compartment_id st.
Proof. reflexivity. Qed.

(** No PDB: the run stops after the first fetch. *)
Lemma main_until_write_stops (env : Env) (profile compartment_id : string) :
  fetches env (pdb_list_command profile compartment_id) (PList []) ->
  exists lines, forall st,
    main_until_write env profile compartment_id st
    = (Ok None,
       log (lines
            ++ ["No PDB data found. Check OCI CLI command and permissions."])
           st).
Proof.
  intros Hpdbs.
  destruct (get_pdb_list_fetches env profile compartment_id _ Hpdbs)
    as [lines Hlist].
  exists ("Starting extraction..." :: lines). intros st.
  unfold main_until_write, bind. rewrite print_log, Hlist.
  cbn [truthy negb]. rewrite print_log. unfold ret.
  rewrite !log_log. reflexivity.
Qed.

(** Some PDBs, the other three commands answered with what the fetchers
    can take, and PDBs that the join can take: the run reaches the write
    with the rows of the join. *)
Lemma main_until_write_joins (env : Env) (profile compartment_id : string)
      (l : list pyval) (databases_answer homes_answer compartment : pyval)
      (databases homes : list pyval) :
  l <> [] ->
  fetches env (pdb_list_command profile compartment_id) (PList l) ->
  fetches env (database_list_command profile compartment_id)
          databases_answer ->
  py_iter databases_answer = Ok databases ->
  forallb keyed_record databases = true ->
  fetches env (db_home_list_command profile compartment_id) homes_answer ->
  py_iter homes_answer = Ok homes ->
  forallb keyed_record homes = true ->
  fetches env (compartment_get_command profile compartment_id) compartment ->
  record_or_nothing compartment = true ->
  Forall (fun pdb => pdb_joinable databases pdb = true) l ->
  exists es hs compartment_name rows lines,
    extract_pdb_cdb_mapping (PList l) (PDict es) (PDict hs)
                            (PStr compartment_id) compartment_name
    = Ok (PList rows)
    /\ Forall2 (fun pdb row =>
                  mapping_row (PDict es) (PDict hs) (PStr compartment_id)
                              compartment_name pdb = Ok row) l rows
    /\ forall st,
      main_until_write env profile compartment_id st
      = (Ok (Some (PList rows)), log lines st).
Proof.
  intros Hl Hpdbs Hdbs Hdbs_items Hdbs_keyed Hhomes Hhomes_items Hhomes_keyed
         Hcomp Hcomp_shape Hjoinable.
  destruct (get_pdb_list_fetches env profile compartment_id _ Hpdbs)
    as [lines1 Hlist].
  destruct (get_cdb_mapping_answers env profile compartment_id _ _ Hdbs
                                    Hdbs_items Hdbs_keyed)
    as (es & lines2 & Hcm & Hlookup).
  destruct (get_db_home_mapping_answers env profile compartment_id _ _ Hhomes
                                        Hhomes_items Hhomes_keyed)
    as (hs & lines3 & Hhm & _).
  destruct (get_compartment_name_fetches env profile compartment_id _ Hcomp
                                         Hcomp_shape)
    as (name & lines4 & Hname).
  destruct (extract_joinable databases l es hs (PStr compartment_id) name
                             Hlookup Hjoinable)
    as (rows & Hrows & Hall).
  exists es, hs, name, rows,
    ("Starting extraction..." :: lines1 ++ lines2 ++ lines3 ++ lines4).
  split; [assumption|]. split; [assumption|]. intros st.
  unfold main_until_write, bind. rewrite print_log, Hlist.
  replace (negb (truthy (PList l))) with false
    by (destruct l; [contradiction|reflexivity]).
  rewrite Hcm, Hhm, Hname. unfold lift. rewrite Hrows. unfold ret.
  rewrite !log_log. cbn [app]. now rewrite !app_assoc.
Qed.

Lemma mapping_row_accepted (cdb_mapping db_home_mapping compartment_id
                            compartment_name pdb row : pyval) :
  mapping_row cdb_mapping db_home_mapping compartment_id compartment_name pdb
  = Ok row ->
  row_accepted row = true.
Proof.
  unfold mapping_row. intros H.
  repeat match type of H with
         | rbind ?c _ = Ok _ =>
             destruct c; cbn [rbind] in H; [|discriminate H]
         end.
  inversion H; subst. reflexivity.
Qed.

Lemma joined_rows_accepted (cdb_mapping db_home_mapping compartment_id
                            compartment_name : pyval) (l rows : list pyval) :
  Forall2 (fun pdb row =>
             mapping_row cdb_mapping db_home_mapping compartment_id
                         compartment_name pdb = Ok row) l rows ->
  Forall (fun row => row_accepted row = true) rows.
Proof.
  induction 1 as [|pdb row l rows Hrow _ IH]; constructor; [|assumption].
  exact (mapping_row_accepted _ _ _ _ _ _ Hrow).
Qed.

(** C1. The PDB fetch returned a list of N items.  If N = 0 the run
    stops there: it prints that no PDB was found and returns, and no file
    is touched.  If N > 0 the join returns N rows, the i-th for the i-th
    PDB, and the run writes them: the file reads back as the header and N
    records.  The premises of the second part are those on which no step
    of [main] raises, and no more: the other two lists hold objects
    filed under a scalar id, the compartment is an object or nothing,
    every PDB is an object with a scalar link to a database whose own
    link to a home is a scalar, and the file takes the writes.  No other
    attribute of any record matters. *)
Theorem row_count_preserved (env : Env) (profile compartment_id : string)
        (l : list pyval) (st : state) :
  fetches env (pdb_list_command profile compartment_id) (PList l) ->
  (l = [] ->
   exists st' lines,
     main env profile compartment_id st = (Ok tt, st')
     /\ files st' = files st
     /\ printed st'
        = (printed st ++ lines
           ++ ["No PDB data found. Check OCI CLI command and permissions."])%list)
  /\ (l <> [] ->
      forall (databases_answer homes_answer compartment : pyval)
             (databases homes : list pyval),
        fetches env (database_list_command profile compartment_id)
                databases_answer ->
        py_iter databases_answer = Ok databases ->
        forallb keyed_record databases = true ->
        fetches env (db_home_list_command profile compartment_id)
                homes_answer ->
        py_iter homes_answer = Ok homes ->
        forallb keyed_record homes = true ->
        fetches env (compartment_get_command profile compartment_id)
                compartment ->
        record_or_nothing compartment = true ->
        Forall (fun pdb => pdb_joinable databases pdb = true) l ->
        file_io env output_file_name = IoOk ->
        exists cdb_mapping db_home_mapping compartment_name rows st' data,
          extract_pdb_cdb_mapping (PList l) cdb_mapping db_home_mapping
                                  (PStr compartment_id) compartment_name
          = Ok (PList rows)
          /\ length rows = length l
          /\ Forall2 (fun pdb row =>
                        mapping_row cdb_mapping db_home_mapping
                                    (PStr compartment_id) compartment_name pdb
                        = Ok row) l rows
          /\ main env profile compartment_id st = (Ok tt, st')
          /\ file_content (files st') output_file_name
             = Some (csv_text env (header :: map row_values rows))
          /\ csv_reader (csv_text env (header :: map row_values rows))
             = Ok (fieldnames :: data)
          /\ length data = length l).
Proof.
  intros Hpdbs. split.
  - intros ->.
    destruct (main_until_write_stops env profile compartment_id Hpdbs)
      as [lines Hstop].
    eexists. exists lines. rewrite main_split. unfold bind.
    rewrite Hstop. split; [reflexivity|]. split; reflexivity.
  - intros Hl databases_answer homes_answer compartment databases homes
           Hdbs Hdbs_items Hdbs_keyed Hhomes Hhomes_items Hhomes_keyed
           Hcomp Hcomp_shape Hjoinable Hio.
    destruct (main_until_write_joins
                env profile compartment_id l databases_answer homes_answer
                compartment databases homes Hl Hpdbs Hdbs Hdbs_items
                Hdbs_keyed Hhomes Hhomes_items Hhomes_keyed Hcomp Hcomp_shape
                Hjoinable)
      as (es & hs & name & rows & lines & Hrows & Hall & Hrun).
    pose proof (Forall2_length_eq _ _ _ Hall) as Hlen.
    exists (PDict es), (PDict hs), name, rows. eexists.
    exists (map (map (field_text env)) (map row_values rows)).
    split; [assumption|]. split; [assumption|]. split; [assumption|].
    split.
    { rewrite main_split. unfold bind at 1. rewrite Hrun.
      unfold bind.
      rewrite (save_to_csv_writes env rows output_file_name _ Hio
                                  (joined_rows_accepted _ _ _ _ _ _ Hall)).
      rewrite print_log. reflexivity. }
    split; [apply file_content_head|].
    split; [apply csv_reader_csv_text|].
    now rewrite !length_map.
Qed.

(* ===================================================================== *)
(** ** When the file cannot be written *)

Lemma file_write_printed (env : Env) (name : string) (k : nat) (text : string)
      (st st' : state) (r : result unit) :
  file_write env name k text st = (r, st') -> printed st' = printed st.
Proof.
  unfold file_write, put_file.
  destruct (file_io env name) as [| |k' e]; [| |destruct (Nat.eqb k' k)];
    intros H; inversion H; reflexivity.
Qed.

(** The [k]-th write is among those of [writerows], which starts with call
    number [start]: the exception of that write leaves [writerows]. *)
Lemma writerows_fails (env : Env) (name : string) (rows : list pyval)
      (k : nat) (e : exn) :
  file_io env name = IoWriteFails k e ->
  Forall (fun row => row_accepted row = true) rows ->
  forall (start : nat) (st : state),
    start <= k ->
    k < start + length rows ->
    exists st',
      writerows env name start rows st = (Raise e, st')
      /\ printed st' = printed st.
Proof.
  intros Hio Hrows. induction Hrows as [|row rows Hrow _ IH];
    intros start st Hstart Hk.
  - simpl in Hk. lia.
  - cbn [writerows]. unfold bind at 1. unfold lift.
    rewrite (dict_to_list_accepted env row Hrow).
    unfold bind at 1.
    destruct (file_write env name start (writerow env (row_values row)) st)
      as [[[]|e'] st1] eqn:Hwrite.
    + pose proof (file_write_printed _ _ _ _ _ _ _ Hwrite) as Hprinted.
      assert (Hne : k <> start).
      { intros ->. unfold file_write in Hwrite. rewrite Hio in Hwrite.
        rewrite Nat.eqb_refl in Hwrite. discriminate Hwrite. }
      destruct (IH (S start) st1) as (st' & Hrest & Hsame).
      * lia.
      * simpl in Hk. lia.
      * exists st'. split; [assumption|congruence].
    + exists st1. unfold file_write in Hwrite. rewrite Hio in Hwrite.
      destruct (Nat.eqb k start); unfold put_file in Hwrite;
        inversion Hwrite; subst. split; reflexivity.
Qed.

(** [save_to_csv] when the open or one of the writes raises: the exception
    is caught, its message is printed, and [save_to_csv] returns. *)
Lemma save_to_csv_fails (env : Env) (rows : list pyval) (name : string)
      (st : state) (e : exn) :
  io_error (file_io env name) (length rows) = Some e ->
  is_Exception (exn_cls e) = true ->
  Forall (fun row => row_accepted row = true) rows ->
  exists st',
    save_to_csv env (PList rows) name st = (Ok tt, st')
    /\ printed st' = (printed st ++ [("Error saving CSV: " ++ exn_msg e)%string])%list.
Proof.
  intros Herr Hexc Hrows.
  destruct (file_io env name) as [|e0|k e0] eqn:Hio; simpl in Herr.
  - discriminate Herr.
  - inversion Herr; subst e0.
    unfold save_to_csv, try_except, bind, open_w. rewrite Hio.
    unfold raise. rewrite Hexc. eexists. split; reflexivity.
  - destruct (Nat.leb k (length rows)) eqn:Hk; [|discriminate Herr].
    inversion Herr; subst e0. apply Nat.leb_le in Hk.
    unfold save_to_csv, try_except.
    unfold bind at 1. unfold open_w. rewrite Hio. unfold put_file at 1.
    unfold bind at 1. unfold writeheader.
    match goal with
    | |- context [file_write env name 0 ?text ?s] =>
        destruct (file_write env name 0 text s) as [[[]|e'] st1] eqn:Hwrite
    end.
    + pose proof (file_write_printed _ _ _ _ _ _ _ Hwrite) as Hprinted.
      assert (Hne : k <> 0).
      { intros ->. unfold file_write in Hwrite. rewrite Hio in Hwrite.
        discriminate Hwrite. }
      unfold bind at 1. cbn [lift py_iter]. unfold bind at 1.
      destruct (writerows_fails env name rows k e Hio Hrows 1 st1)
        as (st2 & Hfail & Hsame); [lia|simpl; lia|].
      rewrite Hfail, Hexc. eexists. split; [reflexivity|].
      cbn [print printed]. rewrite Hsame, Hprinted. reflexivity.
    + unfold file_write in Hwrite. rewrite Hio in Hwrite.
      destruct (Nat.eqb k 0); unfold put_file in Hwrite;
        inversion Hwrite; subst.
      rewrite Hexc. eexists. split; reflexivity.
Qed.

Lemma extract_rows_accepted (pdbs cdb_mapping db_home_mapping compartment_id
                             compartment_name mapping : pyval) :
  extract_pdb_cdb_mapping pdbs cdb_mapping db_home_mapping compartment_id
                          compartment_name = Ok mapping ->
  exists rows,
    mapping = PList rows /\ Forall (fun row => row_accepted row = true) rows.
Proof.
  unfold extract_pdb_cdb_mapping. intros H.
  destruct (py_iter pdbs) as [items|e]; cbn [rbind] in H; [|discriminate H].
  destruct (rmapM _ items) as [rows|e] eqn:Hrows; cbn [rbind] in H;
    [|discriminate H].
  inversion H; subst. exists rows. split; [reflexivity|].
  apply rmapM_Forall2 in Hrows.
  exact (joined_rows_accepted _ _ _ _ _ _ Hrows).
Qed.

(** What a run hands to [save_to_csv] is a list of rows that [DictWriter]
    accepts. *)
Lemma main_until_write_rows (env : Env) (profile compartment_id : string)
      (st st1 : state) (mapping : pyval) :
  main_until_write env profile compartment_id st = (Ok (Some mapping), st1) ->
  exists rows,
    mapping = PList rows /\ Forall (fun row => row_accepted row = true) rows.
Proof.
  unfold main_until_write, bind. rewrite print_log.
  destruct (get_pdb_list env profile compartment_id
                         (log ["Starting extraction..."] st))
    as [[pdbs|e] s1]; [|discriminate].
  destruct (truthy pdbs); cbn [negb]; [|discriminate].
  destruct (get_cdb_mapping env profile compartment_id s1)
    as [[cm|e] s2]; [|discriminate].
  destruct (get_db_home_mapping env profile compartment_id s2)
    as [[hm|e] s3]; [|discriminate].
  destruct (get_compartment_name env profile compartment_id s3)
    as [[name|e] s4]; [|discriminate].
  unfold lift.
  destruct (extract_pdb_cdb_mapping pdbs cm hm (PStr compartment_id) name)
    as [m|e] eqn:Hjoin; [|discriminate].
  unfold ret. intros H. inversion H; subst.
  exact (extract_rows_accepted _ _ _ _ _ _ Hjoin).
Qed.

(** C4. A run that reaches the write, with a file whose open or one of
    whose writes raises an exception [e] (any [Exception], so any I/O
    error): [save_to_csv] returns normally after printing the error, [main]
    prints its last line all the same and returns, and the exit status is
    0, that of the run in which the file takes every write. *)
Theorem csv_failure_is_soft (env : Env) (profile compartment_id : string)
        (st st1 : state) (rows : list pyval) (e : exn) :
  main_until_write env profile compartment_id st
  = (Ok (Some (PList rows)), st1) ->
  io_error (file_io env output_file_name) (length rows) = Some e ->
  is_Exception (exn_cls e) = true ->
  exists st2 st3 st_ok,
    save_to_csv env (PList rows) output_file_name st1 = (Ok tt, st2)
    /\ printed st2
       = (printed st1 ++ [("Error saving CSV: " ++ exn_msg e)%string])%list
    /\ main env profile compartment_id st = (Ok tt, st3)
    /\ printed st3 = (printed st2 ++ ["Process completed successfully."])%list
    /\ main (with_file_io env IoOk) profile compartment_id st = (Ok tt, st_ok)
    /\ printed st_ok
       = (printed st1 ++ ["CSV generated: pdb_cdb_mapping.csv";
                          "Process completed successfully."])%list
    /\ exit_status (fst (main env profile compartment_id st)) = 0%Z
    /\ exit_status (fst (main (with_file_io env IoOk) profile compartment_id
                              st)) = 0%Z.
Proof.
  intros Hrun Herr Hexc.
  destruct (main_until_write_rows env profile compartment_id st st1 _ Hrun)
    as (rows' & Heq & Hrows).
  inversion Heq; subst rows'.
  destruct (save_to_csv_fails env rows output_file_name st1 e Herr Hexc Hrows)
    as (st2 & Hsave & Hprinted).
  assert (Hmain : main env profile compartment_id st
                  = (Ok tt, log ["Process completed successfully."] st2)).
  { rewrite main_split. unfold bind at 1. rewrite Hrun.
    unfold bind. rewrite Hsave. apply print_log. }
  assert (Hok : main (with_file_io env IoOk) profile compartment_id st
                = (Ok tt,
                   log ["Process completed successfully."]
                       {| printed := printed st1
                                     ++ ["CSV generated: " ++ output_file_name];
                          files := (output_file_name,
                                    csv_text (with_file_io env IoOk)
                                             (header :: map row_values rows))
                                     :: remove_file (files st1)
                                                    output_file_name |})).
  { rewrite main_split. unfold bind at 1.
    rewrite main_until_write_file_io, Hrun. unfold bind.
    rewrite (save_to_csv_writes (with_file_io env IoOk) rows output_file_name
                                st1 eq_refl Hrows).
    apply print_log. }
  exists st2. eexists. eexists.
  split; [exact Hsave|]. split; [exact Hprinted|].
  split; [exact Hmain|]. split; [reflexivity|].
  split; [exact Hok|]. split.
  - cbn [log printed]. rewrite <- app_assoc. reflexivity.
  - rewrite Hmain, Hok. split; reflexivity.
Qed.

(* ===================================================================== *)
(** ** Further facts about the join and the run *)

(** A PDB record with no container-database-id at all: line 46 looks its
    CDB up under "Unknown CDB" and line 47 under [None].  When neither is
    a key of the CDB mapping, and nothing is filed under [None] in the
    home mapping, the row has the three placeholders. *)
Lemma unlinked_pdb_gets_placeholders
      (es hs kvs : list (pyval * pyval))
      (compartment_id compartment_name : pyval) :
  dict_lookup kvs container_database_id = None ->
  cdb_mapping_shape (PDict es) = true ->
  dict_lookup es (PStr "Unknown CDB") = None ->
  dict_lookup es PNone = None ->
  dict_lookup hs PNone = None ->
  exists row,
    mapping_row (PDict es) (PDict hs) compartment_id compartment_name
                (PDict kvs) = Ok row
    /\ column row "CDB_Name" = Some (PStr "Unknown CDB")
    /\ column row "Oracle_Home" = Some (PStr "Unknown Oracle Home")
    /\ column row "CDB_ID" = Some (PStr "Unknown CDB").
Proof.
  intros Hlink Hshape Hplaceholder Hnone Hhs.
  eexists. split.
  - apply mapping_row_joined;
      [unfold pdb_record, get_or; now rewrite Hlink|assumption].
  - unfold joined_row, get_or. rewrite Hlink, Hplaceholder, Hnone.
    cbn [dict_lookup]. rewrite Hhs. repeat split; reflexivity.
Qed.

(** In a run that reaches the write, every row has the compartment id of
    the command line in Compartment_ID, and in Compartment_Name the one
    value that [get_compartment_name] returned in that run. *)
Lemma run_compartment_columns (env : Env) (profile compartment_id : string)
      (st st1 : state) (rows : list pyval) :
  main_until_write env profile compartment_id st
  = (Ok (Some (PList rows)), st1) ->
  exists compartment_name sa sb,
    get_compartment_name env profile compartment_id sa
    = (Ok compartment_name, sb)
    /\ Forall (fun row =>
                 column row "Compartment_Name" = Some compartment_name
                 /\ column row "Compartment_ID"
                    = Some (PStr compartment_id)) rows.
Proof.
  unfold main_until_write, bind. rewrite print_log.
  destruct (get_pdb_list env profile compartment_id
                         (log ["Starting extraction..."] st))
    as [[pdbs|e] s1]; [|discriminate].
  destruct (truthy pdbs); cbn [negb]; [|discriminate].
  destruct (get_cdb_mapping env profile compartment_id s1)
    as [[cm|e] s2]; [|discriminate].
  destruct (get_db_home_mapping env profile compartment_id s2)
    as [[hm|e] s3]; [|discriminate].
  destruct (get_compartment_name env profile compartment_id s3)
    as [[name|e] s4] eqn:Hname; [|discriminate].
  unfold lift, extract_pdb_cdb_mapping.
  destruct (py_iter pdbs) as [items|e]; cbn [rbind]; [|discriminate].
  destruct (rmapM _ items) as [rows'|e] eqn:Hrows; cbn [rbind];
    [|discriminate].
  unfold ret. intros H. inversion H; subst.
  exists name, s3, st1. split; [assumption|].
  apply rmapM_Forall2 in Hrows. clear H Hname.
  induction Hrows as [|pdb row l rows Hrow _ IH].
  - constructor.
  - constructor; [|exact IH].
    exact (mapping_row_compartment _ _ _ _ _ _ Hrow).
Qed.

(** The run with no PDB in sight: three lines are printed, no file is
    written, and [main] returns. *)
Example run_without_pdbs :
  main empty_env sample_profile sample_compartment initial_state
  = (Ok tt,
     {| printed := ["Starting extraction..."; "Fetching PDBs...";
                    "No PDB data found. Check OCI CLI command and permissions."];
        files := [] |}).
Proof. reflexivity. Qed.

(** The run on the sample control plane: the file, line by line. *)
Example run_on_sample :
  exists st,
    main sample_env sample_profile sample_compartment initial_state
    = (Ok tt, st)
    /\ file_content (files st) "pdb_cdb_mapping.csv"
       = Some (header_line
               ++ "P1,C1,HOME1,Unknown Compartment,cdb1,"
               ++ sample_compartment ++ lineterminator
               ++ "Unknown PDB,Unknown CDB,Unknown Oracle Home,"
               ++ "Unknown Compartment,cdb9,"
               ++ sample_compartment ++ lineterminator).
Proof. eexists. split; reflexivity. Qed.

(* ===================================================================== *)
(** ** The statements at the sample data *)

(** The example of the specification: PDB P1 in CDB C1 on HOME1. *)
Example joined_row_P1 :
  mapping_row (PDict sample_cdb_mapping) (PDict sample_home_mapping)
              (PStr sample_compartment) (PStr "Prod") (PDict pdb_P1)
  = Ok (row_dict (PStr "P1") (PStr "C1") (PStr "HOME1") (PStr "Prod")
                 (PStr "cdb1") (PStr sample_compartment)).
Proof. reflexivity. Qed.

Lemma sample_pdbs_are_records :
  Forall (fun pdb => pdb_record pdb = true) sample_pdbs.
Proof. repeat constructor. Qed.


Lemma unmapped_home_gets_placeholder_witness :
  exists row,
    mapping_row (PDict sample_cdb_mapping) (PDict [])
                (PStr sample_compartment) (PStr "Prod") (PDict pdb_P1)
    = Ok row
    /\ column row "CDB_Name" = Some (PStr "C1")
    /\ column row "Oracle_Home" = Some (PStr "Unknown Oracle Home").
Proof.
  apply (unmapped_home_gets_placeholder
           sample_cdb_mapping [] pdb_P1 cdb_C1 (PStr sample_compartment)
           (PStr "Prod") (PStr "cdb1") (PStr "C1") (PStr "h1"));
    reflexivity.
Defined.

Lemma cdb_id_is_copied_witness :
  exists row,
    mapping_row (PDict sample_cdb_mapping) (PDict sample_home_mapping)
                (PStr sample_compartment) (PStr "Prod") (PDict pdb_P1)
    = Ok row
    /\ column row "CDB_ID" = Some (PStr "cdb1").
Proof.
  apply (cdb_id_is_copied sample_cdb_mapping sample_home_mapping pdb_P1
                          (PStr sample_compartment) (PStr "Prod"));
    reflexivity.
Defined.

Lemma missing_pdb_name_placeholder_witness :
  exists row,
    mapping_row (PDict sample_cdb_mapping) (PDict sample_home_mapping)
                (PStr sample_compartment) (PStr "Prod") (PDict pdb_orphan)
    = Ok row
    /\ column row "PDB_Name" = Some (PStr "Unknown PDB").
Proof.
  apply (missing_pdb_name_placeholder
           sample_cdb_mapping sample_home_mapping pdb_orphan
           (PStr sample_compartment) (PStr "Prod"));
    reflexivity.
Defined.

Lemma compartment_columns_constant_witness :
  exists rows,
    extract_pdb_cdb_mapping (PList sample_pdbs) (PDict sample_cdb_mapping)
                            (PDict sample_home_mapping)
                            (PStr sample_compartment) (PStr "Prod")
    = Ok (PList rows)
    /\ length rows = length sample_pdbs
    /\ Forall (fun row =>
                 column row "Compartment_Name" = Some (PStr "Prod")
                 /\ column row "Compartment_ID"
                    = Some (PStr sample_compartment)) rows.
Proof.
  apply (compartment_columns_constant
           sample_pdbs sample_cdb_mapping sample_home_mapping
           (PStr sample_compartment) (PStr "Prod")).
  - exact sample_pdbs_are_records.
  - reflexivity.
Defined.

Lemma sample_rows_are_text :
  Forall (fun m => text_row m = true) sample_rows.
Proof. repeat constructor. Qed.

Lemma csv_round_trip_witness :
  exists st' text records,
    save_to_csv sample_env (PList (map mapping_row_dict sample_rows))
                output_file_name initial_state = (Ok tt, st')
    /\ file_content (files st') output_file_name = Some text
    /\ csv_reader text = Ok records
    /\ map (map PStr) records = header :: map mapping_row_values sample_rows.
Proof.
  apply (csv_round_trip sample_env sample_rows output_file_name initial_state).
  - reflexivity.
  - exact sample_rows_are_text.
Defined.

Lemma csv_layout_witness :
  exists st' text,
    save_to_csv sample_env (PList (map mapping_row_dict sample_rows))
                output_file_name initial_state = (Ok tt, st')
    /\ file_content (files st') "pdb_cdb_mapping.csv" = Some text
    /\ text = header_line
              ++ concat_strings (map (data_line sample_env) sample_rows)
    /\ csv_reader text
       = Ok (["PDB_Name"; "CDB_Name"; "Oracle_Home"; "Compartment_Name";
              "CDB_ID"; "Compartment_ID"]
               :: map (fun m =>
                         [field_text sample_env (PDB_Name m);
                          field_text sample_env (CDB_Name m);
                          field_text sample_env (Oracle_Home m);
                          field_text sample_env (Compartment_Name m);
                          field_text sample_env (CDB_ID m);
                          field_text sample_env (Compartment_ID m)])
                      sample_rows).
Proof.
  apply (csv_layout sample_env sample_rows initial_state). reflexivity.
Defined.

Lemma sample_fetches_pdbs :
  fetches sample_env (pdb_list_command sample_profile sample_compartment)
          (PList sample_pdbs).
Proof.
  now apply (fetches_json sample_env _ "<pdbs>" ""
                          [(PStr "data", PList sample_pdbs)]).
Qed.

Lemma sample_fetches_databases :
  fetches sample_env (database_list_command sample_profile sample_compartment)
          sample_databases.
Proof.
  now apply (fetches_json sample_env _ "<cdbs>" ""
                          [(PStr "data", sample_databases)]).
Qed.

Lemma sample_fetches_db_homes :
  fetches sample_env (db_home_list_command sample_profile sample_compartment)
          sample_db_homes.
Proof.
  now apply (fetches_json sample_env _ "<homes>" ""
                          [(PStr "data", sample_db_homes)]).
Qed.

Lemma sample_fetches_no_compartment :
  fetches sample_env
          (compartment_get_command sample_profile sample_compartment)
          (PDict []).
Proof.
  apply (failed_fetch_is_empty
           sample_env
           (compartment_get_command sample_profile sample_compartment)
           1 "" "ServiceError: NotAuthorizedOrNotFound").
  - reflexivity.
  - left. discriminate.
Qed.

Lemma tagged_fetches_pdbs :
  fetches tagged_env (pdb_list_command sample_profile sample_compartment)
          (PList tagged_pdbs).
Proof.
  now apply (fetches_json tagged_env _ "<pdbs>" ""
                          [(PStr "data", PList tagged_pdbs)]).
Qed.

Lemma tagged_fetches_databases :
  fetches tagged_env (database_list_command sample_profile sample_compartment)
          sample_databases.
Proof.
  now apply (fetches_json tagged_env _ "<cdbs>" ""
                          [(PStr "data", sample_databases)]).
Qed.

Lemma tagged_fetches_db_homes :
  fetches tagged_env (db_home_list_command sample_profile sample_compartment)
          sample_db_homes.
Proof.
  now apply (fetches_json tagged_env _ "<homes>" ""
                          [(PStr "data", sample_db_homes)]).
Qed.

Lemma tagged_fetches_no_compartment :
  fetches tagged_env
          (compartment_get_command sample_profile sample_compartment)
          (PDict []).
Proof.
  apply (failed_fetch_is_empty
           tagged_env
           (compartment_get_command sample_profile sample_compartment)
           1 "" "ServiceError: NotAuthorizedOrNotFound").
  - reflexivity.
  - left. discriminate.
Qed.

Lemma row_count_preserved_witness :
  exists cdb_mapping db_home_mapping compartment_name rows st' data,
    extract_pdb_cdb_mapping (PList tagged_pdbs) cdb_mapping db_home_mapping
                            (PStr sample_compartment) compartment_name
    = Ok (PList rows)
    /\ length rows = length tagged_pdbs
    /\ Forall2 (fun pdb row =>
                  mapping_row cdb_mapping db_home_mapping
                              (PStr sample_compartment) compartment_name pdb
                  = Ok row) tagged_pdbs rows
    /\ main tagged_env sample_profile sample_compartment initial_state
       = (Ok tt, st')
    /\ file_content (files st') output_file_name
       = Some (csv_text tagged_env (header :: map row_values rows))
    /\ csv_reader (csv_text tagged_env (header :: map row_values rows))
       = Ok (fieldnames :: data)
    /\ length data = length tagged_pdbs.
Proof.
  apply (proj2 (row_count_preserved tagged_env sample_profile
                                    sample_compartment tagged_pdbs
                                    initial_state tagged_fetches_pdbs)
               ltac:(discriminate)
               sample_databases sample_db_homes (PDict [])
               [obj [("id", PStr "cdb1"); ("db-name", PStr "C1");
                     ("db-home-id", PStr "h1")]]
               [obj [("id", PStr "h1"); ("display-name", PStr "HOME1")]]).
  - exact tagged_fetches_databases.
  - reflexivity.
  - reflexivity.
  - exact tagged_fetches_db_homes.
  - reflexivity.
  - reflexivity.
  - exact tagged_fetches_no_compartment.
  - reflexivity.
  - repeat constructor.
  - reflexivity.
Defined.

Lemma csv_failure_is_soft_witness :
  exists rows st1,
    main_until_write (with_file_io sample_env (IoOpenFails disk_full))
                     sample_profile sample_compartment initial_state
    = (Ok (Some (PList rows)), st1)
    /\ exists st2 st3 st_ok,
      save_to_csv (with_file_io sample_env (IoOpenFails disk_full))
                  (PList rows) output_file_name st1 = (Ok tt, st2)
      /\ printed st2
         = (printed st1
            ++ ["Error saving CSV: [Errno 28] No space left on device"])%list
      /\ main (with_file_io sample_env (IoOpenFails disk_full))
              sample_profile sample_compartment initial_state = (Ok tt, st3)
      /\ printed st3
         = (printed st2 ++ ["Process completed successfully."])%list
      /\ main (with_file_io
                 (with_file_io sample_env (IoOpenFails disk_full)) IoOk)
              sample_profile sample_compartment initial_state = (Ok tt, st_ok)
      /\ printed st_ok
         = (printed st1 ++ ["CSV generated: pdb_cdb_mapping.csv";
                            "Process completed successfully."])%list
      /\ exit_status
           (fst (main (with_file_io sample_env (IoOpenFails disk_full))
                      sample_profile sample_compartment initial_state))
         = 0%Z
      /\ exit_status
           (fst (main (with_file_io
                         (with_file_io sample_env (IoOpenFails disk_full))
                         IoOk)
                      sample_profile sample_compartment initial_state))
         = 0%Z.
Proof.
  eexists. eexists. split; [reflexivity|].
  apply (csv_failure_is_soft
           (with_file_io sample_env (IoOpenFails disk_full))
           sample_profile sample_compartment initial_state _ _ disk_full);
    reflexivity.
Defined.

(* ===================================================================== *)
(** * More about the fetchers *)

(** X1. The client exits with status 0 and prints JSON that is not an
    object (a list, a string, a number, null): the [get] on it raises
    [AttributeError], which [run_oci_command] does not catch; nothing is
    printed. *)
Theorem run_oci_command_not_an_envelope (env : Env) (cmd : list string)
        (out err : string) (v : pyval) (st : state) :
  subprocess_run env cmd = Completed 0 out err ->
  json_loads env out = Decoded v ->
  is_dict v = false ->
  run_oci_command env cmd st = (Raise (no_attribute v "get"), st).
Proof.
  intros Hrun Hjson Hv.
  rewrite (run_oci_command_json env cmd out err v st Hrun Hjson).
  destruct v; try reflexivity. discriminate Hv.
Qed.

Lemma run_oci_command_not_an_envelope_witness :
  run_oci_command bare_list_env
                  (pdb_list_command sample_profile sample_compartment)
                  initial_state
  = (Raise (no_attribute (PList []) "get"), initial_state).
Proof.
  apply (run_oci_command_not_an_envelope
           bare_list_env (pdb_list_command sample_profile sample_compartment)
           "[]" "" (PList []) initial_state);
    reflexivity.
Defined.

(** X2. [subprocess.run] itself raises.  [CalledProcessError] is caught and
    becomes the empty value, with one line printed; an exception of any
    other class that the run of a process can raise ([OSError] when the
    client is not installed) leaves [run_oci_command] as it is. *)
Theorem run_oci_command_when_run_raises (env : Env) (cmd : list string)
        (e : exn) (st : state) :
  subprocess_run env cmd = RunRaises e ->
  run_oci_command env cmd st
  = match exn_cls e with
    | CalledProcessError | JSONDecodeError =>
        (Ok (empty_for cmd), log [("Unexpected error: " ++ exn_msg e)%string] st)
    | _ => (Raise e, st)
    end.
Proof.
  intros Hrun.
  unfold run_oci_command, try_except, bind, call_subprocess.
  rewrite Hrun. unfold raise. destruct e as [[] msg]; reflexivity.
Qed.

Lemma run_oci_command_when_run_raises_witness :
  run_oci_command absent_env
                  (pdb_list_command sample_profile sample_compartment)
                  initial_state
  = (Raise missing_client, initial_state).
Proof.
  apply (run_oci_command_when_run_raises
           absent_env (pdb_list_command sample_profile sample_compartment)
           missing_client initial_state).
  reflexivity.
Defined.

Lemma client_fails_fetches (env : Env) (cmd : list string) :
  client_fails env cmd -> fetches env cmd (empty_for cmd).
Proof.
  intros (rc & out & err & Hrun & Hfail).
  exact (failed_fetch_is_empty env cmd rc out err Hrun Hfail).
Qed.

Lemma compartment_name_of_nothing (env : Env) (profile compartment_id : string)
      (compartment : pyval) :
  fetches env (compartment_get_command profile compartment_id) compartment ->
  truthy compartment = false ->
  exists lines, forall st,
    get_compartment_name env profile compartment_id st
    = (Ok (PStr "Unknown Compartment"), log lines st).
Proof.
  intros [lines Hrun] Hfalsy.
  exists ("Fetching Compartment Name..." :: lines). intros st.
  unfold get_compartment_name, bind. rewrite print_log, Hrun, log_log.
  now rewrite Hfalsy.
Qed.

Lemma empty_for_falsy (cmd : list string) : truthy (empty_for cmd) = false.
Proof.
  unfold empty_for. now destruct (str_in "list" cmd).
Qed.

(** X3. What the four fetchers return when [subprocess.run] returns on
    their command and the client had failed (it exited with a status other
    than 0, or printed what is not JSON), whatever the profile and the
    compartment id: the PDB list is empty, the two mappings are empty, the
    compartment name is "Unknown Compartment"; in that case none raises
    and none touches a file.  The case in which [subprocess.run] itself
    raises (the client cannot be started, its output cannot be decoded as
    text) is not this one: there the fetchers raise, by X2. *)
Theorem fetchers_degrade (env : Env) (profile compartment_id : string) :
  (client_fails env (pdb_list_command profile compartment_id) ->
   exists lines, forall st,
     get_pdb_list env profile compartment_id st
     = (Ok (PList []), log lines st))
  /\ (client_fails env (database_list_command profile compartment_id) ->
      exists lines, forall st,
        get_cdb_mapping env profile compartment_id st
        = (Ok (PDict []), log lines st))
  /\ (client_fails env (db_home_list_command profile compartment_id) ->
      exists lines, forall st,
        get_db_home_mapping env profile compartment_id st
        = (Ok (PDict []), log lines st))
  /\ (client_fails env (compartment_get_command profile compartment_id) ->
      exists lines, forall st,
        get_compartment_name env profile compartment_id st
        = (Ok (PStr "Unknown Compartment"), log lines st)).
Proof.
  repeat split.
  - intros Hfail. apply get_pdb_list_fetches.
    exact (client_fails_fetches _ _ Hfail).
  - intros Hfail. destruct (client_fails_fetches _ _ Hfail) as [lines Hrun].
    exists ("Fetching CDBs..." :: lines). intros st.
    unfold get_cdb_mapping, bind. rewrite print_log, Hrun, log_log.
    reflexivity.
  - intros Hfail. destruct (client_fails_fetches _ _ Hfail) as [lines Hrun].
    exists ("Fetching DB Homes..." :: lines). intros st.
    unfold get_db_home_mapping, bind. rewrite print_log, Hrun, log_log.
    reflexivity.
  - intros Hfail.
    apply (compartment_name_of_nothing
             env profile compartment_id
             (empty_for (compartment_get_command profile compartment_id))).
    + exact (client_fails_fetches _ _ Hfail).
    + apply empty_for_falsy.
Qed.

Lemma failing_env_fails (cmd : list string) : client_fails failing_env cmd.
Proof.
  exists 1%Z, "", "ERROR: profile not found". split; [reflexivity|].
  left. discriminate.
Qed.

Lemma fetchers_degrade_witness :
  (exists lines, forall st,
      get_pdb_list failing_env "list" sample_compartment st
      = (Ok (PList []), log lines st))
  /\ (exists lines, forall st,
         get_cdb_mapping failing_env "list" sample_compartment st
         = (Ok (PDict []), log lines st))
  /\ (exists lines, forall st,
         get_db_home_mapping failing_env "list" sample_compartment st
         = (Ok (PDict []), log lines st))
  /\ (exists lines, forall st,
         get_compartment_name failing_env "list" sample_compartment st
         = (Ok (PStr "Unknown Compartment"), log lines st)).
Proof.
  destruct (fetchers_degrade failing_env "list" sample_compartment)
    as (H1 & H2 & H3 & H4).
  repeat split.
  - apply H1, failing_env_fails.
  - apply H2, failing_env_fails.
  - apply H3, failing_env_fails.
  - apply H4, failing_env_fails.
Defined.

(** X4. The compartment name, by what the get command is answered with:
    the ["name"] of a non-empty object, "Unknown Compartment" when the
    object has no name; "Unknown Compartment" for anything falsy (an empty
    object, an empty list, null); and [AttributeError] for anything truthy
    that is not an object. *)
Theorem compartment_name_cases (env : Env) (profile compartment_id : string)
        (compartment : pyval) :
  fetches env (compartment_get_command profile compartment_id) compartment ->
  exists lines, forall st,
    get_compartment_name env profile compartment_id st
    = (match compartment with
       | PDict (kv :: kvs) =>
           Ok (get_or (kv :: kvs) (PStr "name") (PStr "Unknown Compartment"))
       | _ =>
           if truthy compartment
           then Raise (no_attribute compartment "get")
           else Ok (PStr "Unknown Compartment")
       end, log lines st).
Proof.
  intros [lines Hrun].
  exists ("Fetching Compartment Name..." :: lines). intros st.
  unfold get_compartment_name, bind. rewrite print_log, Hrun, log_log.
  destruct compartment as [|b|z|s|l|[|kv kvs]]; cbn [truthy];
    try reflexivity.
  - now destruct b.
  - now destruct (z =? 0)%Z.
  - now destruct (s =? "").
  - now destruct l.
Qed.

Lemma compartment_name_cases_witness :
  exists lines, forall st,
    get_compartment_name sample_env sample_profile sample_compartment st
    = (Ok (PStr "Unknown Compartment"), log lines st).
Proof.
  exact (compartment_name_cases sample_env sample_profile sample_compartment
                                (PDict []) sample_fetches_no_compartment).
Defined.

(* ===================================================================== *)
(** * The two lookup mappings *)

(** X5. The CDB mapping, from a list of database records answered to the
    list command.  Under every key it holds the entry of the last record
    with that id: a record met later replaces one with an equal id, a
    record without id is filed under "Unknown ID", and the entry has
    "Unknown CDB" and "Unknown DB Home" for a missing name and a missing
    home. *)
Theorem cdb_mapping_holds_last_record
        (env : Env) (profile compartment_id : string)
        (databases : list pyval) :
  fetches env (database_list_command profile compartment_id)
          (PList databases) ->
  forallb flat_record databases = true ->
  exists es lines,
    (forall st,
        get_cdb_mapping env profile compartment_id st
        = (Ok (PDict es), log lines st))
    /\ forall k,
      dict_lookup es k
      = option_map database_entry (last_with_key database_key k databases).
Proof.
  intros Hrun Hdbs.
  exact (get_cdb_mapping_answers env profile compartment_id (PList databases)
                                 databases Hrun eq_refl
                                 (flat_records_keyed databases Hdbs)).
Qed.

(** X6. The home mapping, in the same way: under every key the display
    name of the last home record with that id, "Unknown DB Home" being the
    id of a record that has none and "Unknown Oracle Home" the name of a
    record that has none. *)
Theorem home_mapping_holds_last_record
        (env : Env) (profile compartment_id : string) (homes : list pyval) :
  fetches env (db_home_list_command profile compartment_id) (PList homes) ->
  forallb flat_record homes = true ->
  exists hs lines,
    (forall st,
        get_db_home_mapping env profile compartment_id st
        = (Ok (PDict hs), log lines st))
    /\ forall k,
      dict_lookup hs k
      = option_map home_name (last_with_key home_key k homes).
Proof.
  intros Hrun Hhomes.
  exact (get_db_home_mapping_answers env profile compartment_id (PList homes)
                                     homes Hrun eq_refl
                                     (flat_records_keyed homes Hhomes)).
Qed.

(** The row of a PDB that is linked to a database record, itself linked to
    a home record, on the mappings built from the two lists. *)
Lemma linked_row (databases homes : list pyval)
      (es hs pdb : list (pyval * pyval))
      (compartment_id compartment_name v db home : pyval) :
  (forall k,
      dict_lookup es k
      = option_map database_entry (last_with_key database_key k databases)) ->
  (forall k,
      dict_lookup hs k
      = option_map home_name (last_with_key home_key k homes)) ->
  dict_lookup pdb container_database_id = Some v ->
  last_with_key database_key v databases = Some db ->
  last_with_key home_key (attr_or db "db-home-id" (PStr "Unknown DB Home"))
                homes = Some home ->
  exists row,
    mapping_row (PDict es) (PDict hs) compartment_id compartment_name
                (PDict pdb) = Ok row
    /\ column row "CDB_Name"
       = Some (attr_or db "db-name" (PStr "Unknown CDB"))
    /\ column row "Oracle_Home"
       = Some (attr_or home "display-name" (PStr "Unknown Oracle Home")).
Proof.
  intros Hcdb Hhm Hv Hdb Hhome.
  assert (Hk : forall d, get_or pdb container_database_id d = v)
    by (intros d; unfold get_or; now rewrite Hv).
  assert (He : get_or es v (PDict []) = database_entry db)
    by (unfold get_or; now rewrite Hcdb, Hdb).
  assert (Hh : get_or hs (attr_or db "db-home-id" (PStr "Unknown DB Home"))
                      (PStr "Unknown Oracle Home") = home_name home)
    by (unfold get_or; now rewrite Hhm, Hhome).
  exists (joined_row es hs pdb compartment_id compartment_name). split.
  - apply (joinable_row databases); [assumption|].
    cbn [pdb_joinable]. rewrite Hk, Hdb.
    rewrite (key_eqb_hashable _ _ (last_with_key_matches _ _ _ _ Hdb)).
    exact (key_eqb_hashable _ _ (last_with_key_matches _ _ _ _ Hhome)).
  - unfold joined_row. rewrite !Hk, He. unfold database_entry.
    cbn [get_or dict_lookup key_eqb String.eqb Ascii.eqb Bool.eqb].
    rewrite Hh. split; reflexivity.
Qed.

Lemma quirky_fetches_databases :
  fetches quirky_env (database_list_command sample_profile sample_compartment)
          (PList duplicate_databases).
Proof.
  now apply (fetches_json quirky_env _ "<cdbs>" ""
                          [(PStr "data", PList duplicate_databases)]).
Qed.

Lemma quirky_fetches_homes :
  fetches quirky_env (db_home_list_command sample_profile sample_compartment)
          (PList anonymous_homes).
Proof.
  now apply (fetches_json quirky_env _ "<homes>" ""
                          [(PStr "data", PList anonymous_homes)]).
Qed.

Lemma cdb_mapping_holds_last_record_witness :
  exists es lines,
    (forall st,
        get_cdb_mapping quirky_env sample_profile sample_compartment st
        = (Ok (PDict es), log lines st))
    /\ forall k,
      dict_lookup es k
      = option_map database_entry
                   (last_with_key database_key k duplicate_databases).
Proof.
  exact (cdb_mapping_holds_last_record
           quirky_env sample_profile sample_compartment duplicate_databases
           quirky_fetches_databases eq_refl).
Defined.

Lemma home_mapping_holds_last_record_witness :
  exists hs lines,
    (forall st,
        get_db_home_mapping quirky_env sample_profile sample_compartment st
        = (Ok (PDict hs), log lines st))
    /\ forall k,
      dict_lookup hs k
      = option_map home_name (last_with_key home_key k anonymous_homes).
Proof.
  exact (home_mapping_holds_last_record
           quirky_env sample_profile sample_compartment anonymous_homes
           quirky_fetches_homes eq_refl).
Defined.

(* ===================================================================== *)
(** * The fetchers and the join together *)

(** X7. From the three lists to the row.  A PDB whose
    container-database-id is the id of a database record, whose
    db-home-id is the id of a home record (the last record with the id, in
    both lists): with the mappings that the two fetchers return, its row
    has the db-name of the database as CDB_Name and the display-name of
    the home as Oracle_Home.  The records of the two lists are objects
    filed under a scalar id, which is what the two fetchers need of
    them. *)
Theorem linked_pdb_row
        (env : Env) (profile compartment_id : string)
        (databases homes : list pyval) (pdb : list (pyval * pyval))
        (compartment_name v db home : pyval) :
  fetches env (database_list_command profile compartment_id)
          (PList databases) ->
  fetches env (db_home_list_command profile compartment_id) (PList homes) ->
  forallb keyed_record databases = true ->
  forallb keyed_record homes = true ->
  dict_lookup pdb container_database_id = Some v ->
  last_with_key database_key v databases = Some db ->
  last_with_key home_key (attr_or db "db-home-id" (PStr "Unknown DB Home"))
                homes = Some home ->
  exists es hs lines lines' row,
    (forall st,
        get_cdb_mapping env profile compartment_id st
        = (Ok (PDict es), log lines st))
    /\ (forall st,
           get_db_home_mapping env profile compartment_id st
           = (Ok (PDict hs), log lines' st))
    /\ mapping_row (PDict es) (PDict hs) (PStr compartment_id)
                   compartment_name (PDict pdb) = Ok row
    /\ column row "CDB_Name"
       = Some (attr_or db "db-name" (PStr "Unknown CDB"))
    /\ column row "Oracle_Home"
       = Some (attr_or home "display-name" (PStr "Unknown Oracle Home")).
Proof.
  intros Hdbs Hhomes Hdbs_keyed Hhomes_keyed Hv Hdb Hhome.
  destruct (get_cdb_mapping_answers env profile compartment_id
                                    (PList databases) databases Hdbs eq_refl
                                    Hdbs_keyed)
    as (es & lines & Hcm & Hcdb).
  destruct (get_db_home_mapping_answers env profile compartment_id
                                        (PList homes) homes Hhomes eq_refl
                                        Hhomes_keyed)
    as (hs & lines' & Hhm & Hhome_lookup).
  destruct (linked_row databases homes es hs pdb (PStr compartment_id)
                       compartment_name v db home Hcdb Hhome_lookup Hv Hdb
                       Hhome)
    as (row & Hrow & Hname & Hhome_name).
  exists es, hs, lines, lines', row. auto.
Qed.

Lemma linked_pdb_row_witness :
  exists es hs lines lines' row,
    (forall st,
        get_cdb_mapping quirky_env sample_profile sample_compartment st
        = (Ok (PDict es), log lines st))
    /\ (forall st,
           get_db_home_mapping quirky_env sample_profile sample_compartment st
           = (Ok (PDict hs), log lines' st))
    /\ mapping_row (PDict es) (PDict hs) (PStr sample_compartment)
                   (PStr "Prod") (PDict pdb_tagged) = Ok row
    /\ column row "CDB_Name" = Some (PStr "NEW")
    /\ column row "Oracle_Home" = Some (PStr "HOME1").
Proof.
  exact (linked_pdb_row
           quirky_env sample_profile sample_compartment duplicate_databases
           anonymous_homes pdb_tagged (PStr "Prod") (PStr "cdb1")
           (obj [("id", PStr "cdb1"); ("db-name", PStr "NEW");
                 ("db-home-id", PStr "h1")])
           (obj [("id", PStr "h1"); ("display-name", PStr "HOME1")])
           quirky_fetches_databases quirky_fetches_homes
           eq_refl eq_refl eq_refl eq_refl eq_refl).
Defined.

Lemma last_with_key_app (key_of : pyval -> pyval) (k x : pyval)
      (before after : list pyval) :
  last_with_key key_of k after = None ->
  key_eqb (key_of x) k = true ->
  last_with_key key_of k (before ++ x :: after) = Some x.
Proof.
  intros Hafter Hx. induction before as [|y before IH]; simpl.
  - now rewrite Hafter, Hx.
  - now rewrite IH.
Qed.

(** X8. The placeholders of the two mappings meet.  A database record
    without db-home-id gets the home id "Unknown DB Home", and a home
    record without id is filed under "Unknown DB Home": unless a later
    home record takes that key, the PDBs of that database get the
    display-name of that home as their Oracle_Home, not
    "Unknown Oracle Home".  The records of the two lists are objects
    filed under a scalar id, which is what building the two mappings needs
    of them. *)
Theorem unknown_home_placeholders_meet
        (databases before after : list pyval)
        (pdb db home : list (pyval * pyval))
        (compartment_id compartment_name v : pyval) :
  forallb keyed_record databases = true ->
  forallb keyed_record (before ++ PDict home :: after) = true ->
  dict_lookup pdb container_database_id = Some v ->
  last_with_key database_key v databases = Some (PDict db) ->
  dict_lookup db (PStr "db-home-id") = None ->
  dict_lookup home (PStr "id") = None ->
  last_with_key home_key (PStr "Unknown DB Home") after = None ->
  exists es hs row,
    build_dict cdb_entry (PList databases) = Ok (PDict es)
    /\ build_dict home_entry (PList (before ++ PDict home :: after))
       = Ok (PDict hs)
    /\ mapping_row (PDict es) (PDict hs) compartment_id compartment_name
                   (PDict pdb) = Ok row
    /\ column row "Oracle_Home"
       = Some (get_or home (PStr "display-name")
                      (PStr "Unknown Oracle Home")).
Proof.
  intros Hdbs Hhomes Hv Hdb Hlink Hid Hafter.
  destruct (cdb_mapping_lookup (PList databases) databases eq_refl Hdbs)
    as (es & Hes & Hcdb).
  destruct (home_mapping_lookup (PList (before ++ PDict home :: after))
                                (before ++ PDict home :: after) eq_refl Hhomes)
    as (hs & Hhs & Hhm).
  destruct (linked_row databases (before ++ PDict home :: after) es hs pdb
                       compartment_id compartment_name
                       v (PDict db) (PDict home) Hcdb Hhm Hv Hdb)
    as (row & Hrow & _ & Hhome).
  - unfold attr_or at 1. unfold get_or at 1. rewrite Hlink.
    apply last_with_key_app; [assumption|].
    unfold home_key, attr_or, get_or. now rewrite Hid.
  - exists es, hs, row. auto.
Qed.

Lemma unknown_home_placeholders_meet_witness :
  exists es hs row,
    build_dict cdb_entry (PList duplicate_databases) = Ok (PDict es)
    /\ build_dict home_entry (PList anonymous_homes) = Ok (PDict hs)
    /\ mapping_row (PDict es) (PDict hs) (PStr sample_compartment)
                   (PStr "Prod") (PDict pdb_noid) = Ok row
    /\ column row "Oracle_Home" = Some (PStr "NOWHERE").
Proof.
  exact (unknown_home_placeholders_meet
           duplicate_databases
           [obj [("id", PStr "h1"); ("display-name", PStr "HOME1")]] []
           pdb_noid
           [(PStr "db-name", PStr "NOID")]
           [(PStr "display-name", PStr "NOWHERE")]
           (PStr sample_compartment) (PStr "Prod") (PStr "Unknown ID")
           eq_refl eq_refl eq_refl eq_refl eq_refl eq_refl eq_refl).
Defined.

(* ===================================================================== *)
(** * More about the join *)

Lemma rmapM_app_raise {A B} (f : A -> result B) (good rest : list A)
      (bad : A) (bs : list B) (e : exn) :
  rmapM f good = Ok bs ->
  f bad = Raise e ->
  rmapM f (good ++ bad :: rest) = Raise e.
Proof.
  revert bs. induction good as [|a good IH]; intros bs Hgood Hbad; simpl.
  - now rewrite Hbad.
  - simpl in Hgood. destruct (f a) as [b|e']; simpl in *; [|discriminate].
    destruct (rmapM f good) as [bs'|e']; simpl in Hgood; [|discriminate].
    now rewrite (IH bs' eq_refl Hbad).
Qed.

(** X9. One item of the PDB list that is not an object (a string, a
    number, null) makes the whole join raise [AttributeError]: the rows of
    the records before it are lost with it. *)
Theorem one_bad_pdb_fails_the_join
        (good rest : list pyval) (bad : pyval) (es hs : list (pyval * pyval))
        (compartment_id compartment_name : pyval) :
  Forall (fun pdb => pdb_record pdb = true) good ->
  cdb_mapping_shape (PDict es) = true ->
  is_dict bad = false ->
  extract_pdb_cdb_mapping (PList (good ++ bad :: rest)) (PDict es) (PDict hs)
                          compartment_id compartment_name
  = Raise (no_attribute bad "get").
Proof.
  intros Hgood Hes Hbad.
  destruct (extract_rows good es hs compartment_id compartment_name Hgood Hes)
    as (rows & _ & Hall).
  apply rmapM_Forall2 in Hall.
  unfold extract_pdb_cdb_mapping. cbn [py_iter rbind].
  rewrite (rmapM_app_raise _ good rest bad rows (no_attribute bad "get") Hall).
  - reflexivity.
  - destruct bad; try reflexivity. discriminate Hbad.
Qed.

Lemma one_bad_pdb_fails_the_join_witness :
  extract_pdb_cdb_mapping (PList (sample_pdbs ++ [PStr "P3"]))
                          (PDict sample_cdb_mapping)
                          (PDict sample_home_mapping)
                          (PStr sample_compartment) (PStr "Prod")
  = Raise (no_attribute (PStr "P3") "get").
Proof.
  apply (one_bad_pdb_fails_the_join
           sample_pdbs [] (PStr "P3") sample_cdb_mapping sample_home_mapping
           (PStr sample_compartment) (PStr "Prod")).
  - exact sample_pdbs_are_records.
  - reflexivity.
  - reflexivity.
Defined.

(** X10. A pdb-name that is present and null is not replaced by the
    placeholder: the row holds [None] as PDB_Name, and the writer makes an
    empty first field of it. *)
Theorem null_pdb_name_is_kept
        (env : Env) (es hs kvs : list (pyval * pyval))
        (compartment_id compartment_name : pyval) :
  pdb_record (PDict kvs) = true ->
  cdb_mapping_shape (PDict es) = true ->
  dict_lookup kvs (PStr "pdb-name") = Some PNone ->
  exists row line,
    mapping_row (PDict es) (PDict hs) compartment_id compartment_name
                (PDict kvs) = Ok row
    /\ column row "PDB_Name" = Some PNone
    /\ writerow env (row_values row) = String comma line.
Proof.
  intros Hpdb Hes Hname.
  assert (Hn : get_or kvs (PStr "pdb-name") (PStr "Unknown PDB") = PNone)
    by (unfold get_or; now rewrite Hname).
  exists (joined_row es hs kvs compartment_id compartment_name). eexists.
  split; [now apply mapping_row_joined|].
  unfold joined_row. rewrite Hn. split; [reflexivity|].
  rewrite row_dict_values, writerow_render. unfold render.
  cbn [map field_text join_fields quote_field needs_quotes append].
  reflexivity.
Qed.

Lemma null_pdb_name_is_kept_witness :
  exists row line,
    mapping_row (PDict sample_cdb_mapping) (PDict sample_home_mapping)
                (PStr sample_compartment) (PStr "Prod")
                (PDict pdb_null_name) = Ok row
    /\ column row "PDB_Name" = Some PNone
    /\ writerow sample_env (row_values row) = String comma line.
Proof.
  apply (null_pdb_name_is_kept
           sample_env sample_cdb_mapping sample_home_mapping pdb_null_name
           (PStr sample_compartment) (PStr "Prod"));
    reflexivity.
Defined.

(* ===================================================================== *)
(** * More about the writer *)

Lemma dict_to_list_raises_exception (env : Env) (row : pyval) (e : exn) :
  dict_to_list env row = Raise e -> is_Exception (exn_cls e) = true.
Proof.
  unfold dict_to_list. destruct row as [| | | | |kvs];
    try (intros H; inversion H; reflexivity).
  destruct (filter _ _); intros H; inversion H; reflexivity.
Qed.

Lemma file_write_raises_exception (env : Env) (name : string) (k : nat)
      (text : string) (st st' : state) (e : exn) :
  raises_exceptions_only (file_io env name) = true ->
  file_write env name k text st = (Raise e, st') ->
  is_Exception (exn_cls e) = true.
Proof.
  unfold file_write, put_file. intros Hio.
  destruct (file_io env name) as [| |k' e']; try discriminate.
  destruct (Nat.eqb k' k); [|discriminate].
  intros H. inversion H; subst. exact Hio.
Qed.

Lemma writerows_raises_exception (env : Env) (name : string)
      (rows : list pyval) :
  raises_exceptions_only (file_io env name) = true ->
  forall (k : nat) (st st' : state) (e : exn),
    writerows env name k rows st = (Raise e, st') ->
    is_Exception (exn_cls e) = true.
Proof.
  intros Hio. induction rows as [|row rows IH]; intros k st st' e.
  - discriminate.
  - cbn [writerows]. unfold bind at 1. unfold lift.
    destruct (dict_to_list env row) as [fields|e0] eqn:Hrow.
    + unfold bind at 1.
      destruct (file_write env name k (writerow env fields) st)
        as [[[]|e1] st1] eqn:Hwrite.
      * apply IH.
      * intros H. inversion H; subst.
        exact (file_write_raises_exception _ _ _ _ _ _ _ Hio Hwrite).
    + intros H. inversion H; subst.
      exact (dict_to_list_raises_exception env row e Hrow).
Qed.

Lemma py_iter_raises_exception (v : pyval) (e : exn) :
  py_iter v = Raise e -> is_Exception (exn_cls e) = true.
Proof.
  destruct v; intros H; inversion H; reflexivity.
Qed.

(** What [save_to_csv] does once the file is open. *)
Lemma written_part_raises_exception (env : Env) (mapping : pyval)
      (name : string) (st st' : state) (e : exn) :
  raises_exceptions_only (file_io env name) = true ->
  (writeheader env name ;;;
   rowdicts <- lift (py_iter mapping) ;;
   writerows env name 1 rowdicts ;;;
   print ("CSV generated: " ++ name))%py st = (Raise e, st') ->
  is_Exception (exn_cls e) = true.
Proof.
  intros Hio. unfold bind at 1. unfold writeheader.
  destruct (file_write env name 0 (writerow env (map PStr fieldnames)) st)
    as [[[]|e1] s1] eqn:Hheader.
  - unfold bind at 1. unfold lift.
    destruct (py_iter mapping) as [rows|e2] eqn:Hiter.
    + unfold bind at 1.
      destruct (writerows env name 1 rows s1) as [[[]|e3] s2] eqn:Hrows.
      * discriminate.
      * intros H. inversion H; subst.
        exact (writerows_raises_exception env name rows Hio _ _ _ _ Hrows).
    + intros H. inversion H; subst.
      exact (py_iter_raises_exception mapping e Hiter).
  - intros H. inversion H; subst.
    exact (file_write_raises_exception _ _ _ _ _ _ _ Hio Hheader).
Qed.

(** X11. Whatever it is given to write, and whatever exception of class
    [Exception] the file raises, [save_to_csv] returns normally: no such
    exception reaches its caller. *)
Theorem save_to_csv_never_raises (env : Env) (mapping : pyval)
        (name : string) (st : state) :
  raises_exceptions_only (file_io env name) = true ->
  exists st', save_to_csv env mapping name st = (Ok tt, st').
Proof.
  intros Hio. unfold save_to_csv, try_except.
  match goal with
  | |- context [match ?body st with _ => _ end] =>
      destruct (body st) as [[[]|e] st1] eqn:Hbody
  end.
  - eexists. reflexivity.
  - assert (Hexc : is_Exception (exn_cls e) = true).
    { revert Hbody. unfold bind at 1. unfold open_w.
      destruct (file_io env name) as [|e0|k e0] eqn:Hfile.
      - unfold put_file at 1.
        apply written_part_raises_exception. now rewrite Hfile.
      - unfold raise. intros H. inversion H; subst. exact Hio.
      - unfold put_file at 1.
        apply written_part_raises_exception. now rewrite Hfile. }
    rewrite Hexc. eexists. reflexivity.
Qed.

Lemma save_to_csv_never_raises_witness :
  exists st',
    save_to_csv (with_file_io sample_env (IoWriteFails 1 disk_full))
                (PList [row_with_extra; PInt 7]) output_file_name
                initial_state
    = (Ok tt, st').
Proof.
  apply (save_to_csv_never_raises
           (with_file_io sample_env (IoWriteFails 1 disk_full))
           (PList [row_with_extra; PInt 7]) output_file_name initial_state).
  reflexivity.
Defined.

Lemma rejected_row_raises (env : Env) (kvs : list (pyval * pyval)) :
  row_accepted (PDict kvs) = false ->
  exists msg,
    dict_to_list env (PDict kvs)
    = Raise (Exn ValueError
                 ("dict contains fields not in fieldnames: " ++ msg)).
Proof.
  simpl. intros Hkeys.
  destruct (filter (fun k => negb (is_fieldname k)) (map fst kvs))
    as [|k ks] eqn:Hfilter.
  - exfalso. induction (map fst kvs) as [|k ks IH]; [discriminate|].
    simpl in Hkeys, Hfilter.
    destruct (is_fieldname k); simpl in *; [auto|discriminate].
  - eexists. reflexivity.
Qed.

(** With a file that takes every write, the rows before a rejected row are
    written, and the error of the rejected row leaves [writerows]. *)
Lemma writerows_until_rejected (env : Env) (name : string)
      (good rest : list pyval) (bad : pyval) (e : exn) :
  file_io env name = IoOk ->
  Forall (fun row => row_accepted row = true) good ->
  dict_to_list env bad = Raise e ->
  forall (k : nat) (pr : list string) (cur : string)
         (others : list (string * string)),
    remove_file others name = others ->
    writerows env name k (good ++ bad :: rest)
              {| printed := pr; files := (name, cur) :: others |}
    = (Raise e,
       {| printed := pr;
          files := (name, cur ++ csv_text env (map row_values good))
                     :: others |}).
Proof.
  intros Hio Hgood Hbad. induction Hgood as [|row good Hrow _ IH];
    intros k pr cur others Hothers.
  - cbn [app writerows]. unfold bind at 1. unfold lift. rewrite Hbad.
    unfold csv_text. simpl. now rewrite append_nil_r.
  - cbn [app writerows]. unfold bind at 1. unfold lift.
    rewrite (dict_to_list_accepted env row Hrow).
    unfold bind at 1. unfold file_write. rewrite Hio.
    cbn [files file_content]. rewrite String.eqb_refl.
    unfold put_file. cbn [printed files remove_file].
    rewrite String.eqb_refl, Hothers.
    rewrite IH by assumption.
    unfold csv_text. cbn [map concat_strings].
    now rewrite append_assoc.
Qed.

(** X12. A row with a key that is no field name, on a file that takes
    every write: the header and the rows before it are in the file, the
    [ValueError] of [DictWriter] is caught and printed, the rows after it
    are not written, and [save_to_csv] returns without the line
    "CSV generated". *)
Theorem rejected_row_stops_the_writing
        (env : Env) (good rest : list pyval) (kvs : list (pyval * pyval))
        (name : string) (st : state) :
  file_io env name = IoOk ->
  Forall (fun row => row_accepted row = true) good ->
  row_accepted (PDict kvs) = false ->
  exists st' msg,
    save_to_csv env (PList (good ++ PDict kvs :: rest)) name st = (Ok tt, st')
    /\ file_content (files st') name
       = Some (csv_text env (header :: map row_values good))
    /\ printed st'
       = (printed st
          ++ [("Error saving CSV: dict contains fields not in fieldnames: "
               ++ msg)%string])%list.
Proof.
  intros Hio Hgood Hbad.
  destruct (rejected_row_raises env kvs Hbad) as [msg Hraise].
  eexists. exists msg.
  unfold save_to_csv, try_except.
  unfold bind at 1. unfold open_w. rewrite Hio. unfold put_file at 1.
  unfold bind at 1. unfold writeheader, file_write. rewrite Hio.
  cbn [files file_content]. rewrite String.eqb_refl.
  unfold put_file. cbn [printed files remove_file].
  rewrite String.eqb_refl, remove_file_absent.
  unfold bind at 1. cbn [lift py_iter].
  unfold bind at 1.
  rewrite (writerows_until_rejected env name good rest (PDict kvs) _ Hio
                                    Hgood Hraise)
    by apply remove_file_absent.
  cbn [exn_cls is_Exception print exn_msg].
  split; [reflexivity|]. split; [|reflexivity].
  cbn [files]. now rewrite file_content_head.
Qed.

Lemma rejected_row_stops_the_writing_witness :
  exists st' msg,
    save_to_csv sample_env
                (PList (map mapping_row_dict sample_rows
                        ++ row_with_extra :: [short_row]))
                output_file_name initial_state = (Ok tt, st')
    /\ file_content (files st') output_file_name
       = Some (csv_text sample_env
                 (header
                    :: map row_values (map mapping_row_dict sample_rows)))
    /\ printed st'
       = (printed initial_state
          ++ [("Error saving CSV: dict contains fields not in fieldnames: "
               ++ msg)%string])%list.
Proof.
  apply (rejected_row_stops_the_writing
           sample_env (map mapping_row_dict sample_rows) [short_row]
           [(PStr "PDB_Name", PStr "P3"); (PStr "Owner", PStr "nobody")]
           output_file_name initial_state).
  - reflexivity.
  - apply mapping_rows_accepted.
  - reflexivity.
Defined.

Lemma accepted_row_values (env : Env) (row : pyval) :
  row_accepted row = true ->
  map (field_text env) (row_values row)
  = map (fun f => field_text env (attr_or row f (PStr ""))) fieldnames.
Proof.
  destruct row; try discriminate. intros _.
  unfold row_values. now rewrite map_map.
Qed.

(** X13. Rows that lack some of the six columns are written all the same:
    read back, the file gives the header and one record of six fields per
    row, a missing column being the empty string and [None] too. *)
Theorem missing_columns_are_empty_fields
        (env : Env) (rows : list pyval) (name : string) (st : state) :
  file_io env name = IoOk ->
  Forall (fun row => row_accepted row = true) rows ->
  exists st' text,
    save_to_csv env (PList rows) name st = (Ok tt, st')
    /\ file_content (files st') name = Some text
    /\ csv_reader text
       = Ok (fieldnames
               :: map (fun row =>
                         map (fun f => field_text env (attr_or row f (PStr "")))
                             fieldnames) rows).
Proof.
  intros Hio Hrows. eexists. eexists.
  split; [now apply save_to_csv_writes|].
  split; [apply file_content_head|].
  rewrite csv_reader_csv_text. cbn [map]. f_equal. f_equal.
  rewrite map_map.
  induction Hrows as [|row rows Hrow _ IH]; [reflexivity|].
  cbn [map]. now rewrite IH, (accepted_row_values env row Hrow).
Qed.

Lemma missing_columns_are_empty_fields_witness :
  exists st' text,
    save_to_csv sample_env (PList [short_row]) output_file_name initial_state
    = (Ok tt, st')
    /\ file_content (files st') output_file_name = Some text
    /\ csv_reader text
       = Ok (fieldnames
               :: map (fun row =>
                         map (fun f =>
                                field_text sample_env
                                           (attr_or row f (PStr "")))
                             fieldnames) [short_row]).
Proof.
  apply (missing_columns_are_empty_fields
           sample_env [short_row] output_file_name initial_state).
  - reflexivity.
  - repeat constructor.
Defined.

(* ===================================================================== *)
(** * More about the run *)

(** X14. The run stops at the first step whenever the answer to the PDB
    list is falsy, not only for an empty list: a failed client, a missing
    or null ["data"], an empty object.  It prints the no-PDB line, returns
    normally and touches no file; the other three commands do not matter. *)
Theorem main_stops_on_nothing (env : Env) (profile compartment_id : string) :
  client_fails env (pdb_list_command profile compartment_id)
  \/ (exists pdbs,
         fetches env (pdb_list_command profile compartment_id) pdbs
         /\ truthy pdbs = false) ->
  exists lines, forall st,
    main env profile compartment_id st
    = (Ok tt,
       log (lines
            ++ ["No PDB data found. Check OCI CLI command and permissions."])
           st).
Proof.
  intros H.
  assert (Hfalsy : exists pdbs,
             fetches env (pdb_list_command profile compartment_id) pdbs
             /\ truthy pdbs = false).
  { destruct H as [Hfail|H]; [|exact H].
    exists (empty_for (pdb_list_command profile compartment_id)).
    split; [now apply client_fails_fetches | apply empty_for_falsy]. }
  destruct Hfalsy as (pdbs & Hpdbs & Htruthy).
  destruct (get_pdb_list_fetches env profile compartment_id _ Hpdbs)
    as [lines Hlist].
  exists ("Starting extraction..." :: lines). intros st.
  unfold main, bind. rewrite print_log, Hlist, Htruthy.
  cbn [negb]. rewrite print_log, !log_log. reflexivity.
Qed.

Lemma main_stops_on_nothing_witness :
  exists lines, forall st,
    main failing_env sample_profile sample_compartment st
    = (Ok tt,
       log (lines
            ++ ["No PDB data found. Check OCI CLI command and permissions."])
           st).
Proof.
  apply (main_stops_on_nothing failing_env sample_profile sample_compartment).
  left. apply failing_env_fails.
Defined.

(** X15. Nothing in [main] catches what the construction of the CDB
    mapping raises.  With some PDBs, and a database list whose first item
    is not an object, [main] ends with the [AttributeError]: exit status 1,
    no file written. *)
Theorem malformed_databases_end_the_run
        (env : Env) (profile compartment_id : string)
        (pdbs db : pyval) (rest : list pyval) :
  fetches env (pdb_list_command profile compartment_id) pdbs ->
  truthy pdbs = true ->
  fetches env (database_list_command profile compartment_id)
          (PList (db :: rest)) ->
  is_dict db = false ->
  exists lines, forall st,
    main env profile compartment_id st
    = (Raise (no_attribute db "get"), log lines st)
    /\ exit_status (fst (main env profile compartment_id st)) = 1%Z.
Proof.
  intros Hpdbs Htruthy [lines2 Hdbs] Hdb.
  destruct (get_pdb_list_fetches env profile compartment_id _ Hpdbs)
    as [lines1 Hlist].
  exists ("Starting extraction..." :: lines1 ++ "Fetching CDBs..." :: lines2).
  intros st.
  assert (Hmain : main env profile compartment_id st
                  = (Raise (no_attribute db "get"),
                     log ("Starting extraction..."
                            :: lines1 ++ "Fetching CDBs..." :: lines2) st)).
  { unfold main, bind. rewrite print_log, Hlist, Htruthy. cbn [negb].
    unfold get_cdb_mapping, bind. rewrite print_log, Hdbs.
    unfold lift, build_dict. cbn [py_iter rbind dict_comprehension].
    replace (cdb_entry [] db) with (@Raise (list (pyval * pyval))
                                           (no_attribute db "get"))
      by (destruct db; try reflexivity; discriminate Hdb).
    cbn [rbind]. rewrite !log_log. reflexivity. }
  rewrite Hmain. split; reflexivity.
Qed.

Lemma malformed_databases_end_the_run_witness :
  exists lines, forall st,
    main malformed_env sample_profile sample_compartment st
    = (Raise (no_attribute (PInt 1) "get"), log lines st)
    /\ exit_status (fst (main malformed_env sample_profile sample_compartment
                              st)) = 1%Z.
Proof.
  apply (malformed_databases_end_the_run
           malformed_env sample_profile sample_compartment
           (PList sample_pdbs) (PInt 1) [PInt 2]).
  - now apply (fetches_json malformed_env _ "<pdbs>" ""
                            [(PStr "data", PList sample_pdbs)]).
  - reflexivity.
  - now apply (fetches_json malformed_env _ "<cdbs>" ""
                            [(PStr "data", PList [PInt 1; PInt 2])]).
  - reflexivity.
Defined.
